(** * Property correlations for water and aqueous NaCl (props.c)

    A shallow embedding of the correlation library of [src/props.c] and the
    verification of its specification.  All eleven functions of the file are
    embedded: [psat_h2o], [ThermCond_Maxwell], [SatConc], [LatentHeat],
    [Convert_w2m], [ThermCond_aqNaCl], [ConvertX], [ActivityCoefficient_h2o],
    [WaterVaporPressure_brine], [Density_aqNaCl] and [Viscosity_aqNaCl].

    Conventions of the embedding.

    - [real] is Fluent's floating-point typedef; it comes from [udf.h], which
      is not part of the repository.  The development reads it as the field
      of real numbers [R]: the correlations are verified as the formulas they
      implement, rounding is outside the model.  Where a property of the
      specification is decided by rounding, the module [Binary64] evaluates
      the same expressions on IEEE binary64 numbers.
    - [pow(x, i)] is only ever called with a non-negative integral exponent
      (a loop counter or the literal [2.]) and is read as [x ^ i].
    - [sqrt] is the square root of the standard library of reals, which is 0
      on negative numbers where C returns a NaN; the one call of [sqrt] in
      the program computes a value that is never read.
    - C leaves [x / 0] undefined (IEEE arithmetic would deliver an infinity
      or a NaN).  The embedding makes the event observable: a division whose
      divisor is zero ends the computation with [DomainError].
    - [Message] is the diagnostic channel of the host solver.  A computation
      carries the list of messages it has emitted, in order.
    - An array is a list of cells; an access outside the array ends the
      computation with [BadIndex], reading a cell that was never written
      with [Uninitialised]. *)

From Stdlib Require Import Floats.PrimFloat.
From Stdlib Require Import Reals Lra ZArith Lia String.
From stdpp Require Import base decidable list.

Open Scope R_scope.

(** ** The computation monad: outcome and emitted messages *)

Inductive error : Set :=
  | DomainError
  | BadIndex
  | Uninitialised.

(** One call of [Message(format, args...)]. *)
Record message : Type := Msg { msg_format : string; msg_args : list R }.

Inductive outcome (A : Type) : Type :=
  | Ok (a : A)
  | Err (e : error).
Arguments Ok {A} a.
Arguments Err {A} e.

Record M (A : Type) : Type := Run { value : outcome A; log : list message }.
Arguments Run {A} value log.
Arguments value {A} m.
Arguments log {A} m.

#[global] Instance M_ret : MRet M := fun A a => Run (Ok a) [].

#[global] Instance M_bind : MBind M := fun A B f m =>
  match value m with
  | Ok a => Run (value (f a)) (log m ++ log (f a))
  | Err e => Run (Err e) (log m)
  end.

#[global] Instance M_throw : MThrow error M := fun A e => Run (Err e) [].

Definition Message (format : string) (args : list R) : M unit :=
  Run (Ok tt) [Msg format args].

(** ** Arithmetic and comparisons of [real] *)

#[global] Instance Rlt_decision (x y : R) : Decision (x < y) := Rlt_dec x y.
#[global] Instance Rgt_decision (x y : R) : Decision (x > y) := Rgt_dec x y.
#[global] Instance Rle_decision (x y : R) : Decision (x <= y) := Rle_dec x y.
#[global] Instance Req_decision : EqDecision R := Req_dec_T.

(** [x / y] of C. *)
Definition divide (x y : R) : M R :=
  if decide (y = 0) then mthrow DomainError else mret (x / y).

(** ** Arrays *)

(** An array of [real]: [None] marks a cell that has not been written yet
    (a local array declared without initialiser, fresh [malloc] storage). *)
Abbreviation array := (list (option R)).

Definition uninitialised (n : nat) : array := replicate n None.

(** [real a[] = {...}] *)
Definition initialised (l : list R) : array := Some <$> l.

(** [a[i]] *)
Definition read (a : array) (i : nat) : M R :=
  match a !! i with
  | Some (Some v) => mret v
  | Some None => mthrow Uninitialised
  | None => mthrow BadIndex
  end.

(** [a[i] = v] *)
Definition write (a : array) (i : nat) (v : R) : M array :=
  if decide (i < length a)%nat then mret (<[i := Some v]> a) else mthrow BadIndex.

(** [a[i]] for an [int] index, which may be negative. *)
Definition readZ (a : array) (i : Z) : M R :=
  if decide (0 <= i)%Z then read a (Z.to_nat i) else mthrow BadIndex.

(** [a[i][j]] for a table of rows. *)
Definition read2 (a : list array) (i j : nat) : M R :=
  match a !! i with
  | Some row => read row j
  | None => mthrow BadIndex
  end.

(** ** Control *)

(** [if (c) stmt;] *)
Definition when (P : Prop) `{Decision P} (stmt : M unit) : M unit :=
  if decide P then stmt else mret tt.

(** [for (i = from; i < from + n; i++) body], threading the variables the
    body assigns as the state [s]. *)
Fixpoint loop {St : Type} (from n : nat) (body : nat -> St -> M St) (s : St) : M St :=
  match n with
  | O => mret s
  | S n' => s' ← body from s; loop (S from) n' body s'
  end.

(** ** Names declared by [consts.h] *)

(** Modelled from the spec: [consts.h] is not part of the repository.  The
    spec describes the phase selector as "an enumerated code {GAS, SOLID}
    indexing a 2-element local array". *)
Definition GAS : nat := 0.
Definition SOLID : nat := 1.

(** Modelled from the spec: [consts.h] is not part of the repository.  The
    spec describes the material selector as "[material_code] in {0,1,2,3}
    mapped to {PVDF, PTFE, PP, PES}", an enumerated code indexing the
    4-entry table of solid-phase parameters. *)
Definition PVDF : nat := 0.
Definition PTFE : nat := 1.
Definition PP : nat := 2.
Definition PES : nat := 3.

(** ** The program *)

(** *** Saturation pressure of water *)

Definition PSAT_A : R := 0.01.
Definition PSAT_TP : R := 338.15.
Definition C_LOOP : nat := 8.
Definition H2O_PC : R := 22.089E6.
Definition H2O_TC : R := 647.286.

(** The coefficient table [constants[8]] of [psat_h2o]. *)
Definition constants : list R :=
  [-7.4192420; 2.97221E-1; -1.155286E-1;
   8.68563E-3; 1.094098E-3; -4.39993E-3; 2.520658E-3; -5.218684E-4].

Definition psat_h2o (tsat : R) : M R :=
  let constants := initialised constants in
  let var1 := PSAT_A * (tsat - PSAT_TP) in
  let sum1 := 0.0 in
  sum1 ← loop 0 C_LOOP (fun i sum1 =>
            c ← read constants i;
            mret (sum1 + c * var1 ^ i)) sum1;
  q ← divide H2O_TC tsat;
  let ans1 := sum1 * (q - 1.0) in
  let psat := H2O_PC * exp ans1 in
  mret psat.

(** *** Thermal conductivity of the membrane, Maxwell model *)

Definition ThermCond_Maxwell (temp porosity : R) (opt : Z) : M R :=
  let kappa := uninitialised 2 in
  let A := initialised [5.769; 5.769; 12.5; 4.167] in
  let B := initialised [0.9144; 8.914; -23.51; 1.452] in
  let i := 0%nat in
  kappa ← write kappa GAS (1.5e-3 * sqrt temp);
  kappa ← write kappa GAS (2.72e-3 + 7.77e-5 * temp);
  i ← match opt with
      | 0%Z => mret PVDF
      | 1%Z => mret PTFE
      | 2%Z => mret PP
      | 3%Z => mret PES
      | _ =>
          Message "\n Function: ThermCond_Maxwell() has a wrong input argument of opt \n" [];;
          mret i
      end;
  a ← read A i;
  b ← read B i;
  kappa ← write kappa SOLID (a * 1e-4 * temp + b * 1e-2);
  ks ← read kappa SOLID;
  kg ← read kappa GAS;
  beta ← divide (ks - kg) (ks + 2 * kg);
  kg ← read kappa GAS;
  result ← divide (kg * (1 + 2 * beta * (1 - porosity))) (1 - beta * (1 - porosity));
  mret result.

(** *** Solubility of NaCl *)

Definition SatConc (t : R) : M R :=
  let w_sat := 0 in
  let A := initialised [0.2628; 62.75e-6; 1.084e-6] in
  let temp := t - 273.15 in
  when (t < 0 \/ t > 450)
    (Message "[WARNING] Solubility correlation at %g C is out of temperature range.\n" [t]);;
  w_sat ← loop 0 3 (fun i w_sat =>
             a ← read A i;
             mret (w_sat + a * temp ^ i)) w_sat;
  mret w_sat.

(** *** Latent heat of evaporation *)

Definition LatentHeat (t : R) : R :=
  1e+3 * (1.7535 * t + 2024.3).

(** *** Mass fraction of NaCl to molality *)

Definition Convert_w2m (w : R) : M R :=
  q ← divide w (1 - w);
  q ← divide q 58.4428;
  let m := q * 1000 in
  mret m.

(** *** Thermal conductivity of the NaCl solution *)

Section Verbosity.

(** [id_message] is a global of the host program, declared by [consts.h]; the
    functions that consult it take its current value as an argument. *)
Variable id_message : Z.

Definition ThermCond_aqNaCl (T w_nacl : R) : M R :=
  let lambda := 0 in
  let sum := initialised [0; 0; 0] in
  let a := [initialised [0.5621; 0.00199; -8.6e-6];
            initialised [-0.01394; 0.000294; -2.3e-6];
            initialised [0.00177; -6.3e-5; 4.5e-7]] in
  m ← Convert_w2m w_nacl;
  when (id_message < 2)%Z
    (when (T < 295 \/ T > 365)
       (Message "[WARNING] Out of temperature range for %g in thermal conductivity correlation" [T]);;
     when (m <= 6.0)
       (Message "[WARNING] Out of molality range for %g in thermal conductivity correlation" [m]));;
  '(sum, lambda) ← loop 0 3 (fun i '(sum, lambda) =>
      sum ← loop 0 3 (fun j sum =>
               aij ← read2 a i j;
               s ← read sum i;
               write sum i (s + aij * (T - 273.15) ^ j)) sum;
      s ← read sum i;
      mret (sum, lambda + s * m ^ i)) (sum, lambda);
  mret lambda.

End Verbosity.

(** *** Mass fraction to molar fraction *)

(** [r] is the scratch array obtained from [malloc] and released before the
    return; [MW] and [wi] are the arrays of the caller. *)
Definition ConvertX (imat nmat : Z) (MW wi : array) : M R :=
  let sum_N := 0 in
  let r := uninitialised (Z.to_nat nmat) in
  '(r, sum_N) ← loop 0 (Z.to_nat nmat) (fun i '(r, sum_N) =>
      w ← read wi i;
      mw ← read MW i;
      q ← divide w mw;
      r ← write r i q;
      ri ← read r i;
      mret (r, sum_N + ri)) (r, sum_N);
  rimat ← readZ r imat;
  xi ← divide rimat sum_N;
  mret xi.

(** *** Activity coefficient of water (Lawson and Lloyd) *)

Definition ActivityCoefficient_h2o (x_nv : R) : R :=
  1 - 0.5 * x_nv - 10 * x_nv ^ 2.

(** *** Vapour pressure of water over brine *)

Definition WaterVaporPressure_brine (temperature mass_fraction_h2o : R) : M R :=
  let MW := initialised [18.01534; 58.4428] in
  let wi := uninitialised 2 in
  wi ← write wi 0 mass_fraction_h2o;
  wi ← write wi 1 (1 - mass_fraction_h2o);
  x ← ConvertX 0 2 MW wi;
  let x_nv := 1 - x in
  let alpha := ActivityCoefficient_h2o x_nv in
  p ← psat_h2o temperature;
  let vp := (1 - x_nv) * alpha * p in
  mret vp.

(** *** Density and viscosity of the NaCl solution *)

Section Ranges.

(** The same global [id_message] as above. *)
Variable id_message : Z.

Definition Density_aqNaCl (T w : R) : M R :=
  let sum := 0 in
  let A := [initialised [1.001; 0.7666; -0.0149; 0.2663; 0.8845];
            initialised [-0.0214; -3.496; 10.02; -6.56; -31.37];
            initialised [-5.263; 39.87; 176.2; 363.5; -7.784];
            initialised [15.42; -167.0; 980.7; -2573.0; 876.6];
            initialised [-0.0276; 0.2978; -2.017; 6.345; -3.914]] in
  let B := initialised [0; 0; 0; 0; 0] in
  let C := initialised [1e3; 1e0; 1e-3; 1e-6; 1e-6] in
  when ((id_message < 2)%Z /\ (T < 0 \/ T > 300))
    (Message "[WARNING] Density correlation at %g C is out of temperature range.\n" [T]);;
  '(B, sum) ← loop 0 5 (fun i '(B, sum) =>
      B ← loop 0 5 (fun j B =>
             aij ← read2 A i j;
             b ← read B i;
             write B i (b + aij * w ^ j)) B;
      b ← read B i;
      c ← read C i;
      mret (B, sum + b * c * T ^ i)) (B, sum);
  mret sum.

Definition Viscosity_aqNaCl (T w_nv : R) : M R :=
  when ((id_message < 2)%Z /\ (w_nv < 0 \/ w_nv > 0.25))
    (Message "[WARNING] Viscosity correlation for salinity of %g is out of mass-fraction range.\n" [w_nv]);;
  let mu := (17.02821 - 0.39206 * T + 0.188912 * w_nv - 0.00466 * T * w_nv
             + 0.003025 * T * T + 0.011738 * w_nv * w_nv) * 0.001 in
  mret mu.

End Ranges.

(** ** The formulas of the specification *)

(** The power series [sum over i of c[i] * x^i], starting at exponent [i]. *)
Fixpoint power_series_from (i : nat) (c : list R) (x : R) : R :=
  match c with
  | [] => 0
  | ci :: c' => ci * x ^ i + power_series_from (S i) c' x
  end.

Definition power_series (c : list R) (x : R) : R := power_series_from 0 c x.

(** Saturation pressure as the specification words it: the 8-term series in
    the reduced variable [x = 0.01 * (T - 338.15)], times [(T_c / T - 1)],
    exponentiated and scaled by the critical pressure. *)
Definition SaturationPressureWater (T : R) : M R :=
  q ← divide H2O_TC T;
  mret (H2O_PC * exp (power_series constants (0.01 * (T - 338.15)) * (q - 1))).

(** [ThermCond_Maxwell] with the first gas-phase formula
    ([1.5e-3 * sqrt(temp)]) removed and only the second kept. *)
Definition ThermCond_Maxwell_second_formula_only (temp porosity : R) (opt : Z) : M R :=
  let kappa := uninitialised 2 in
  let A := initialised [5.769; 5.769; 12.5; 4.167] in
  let B := initialised [0.9144; 8.914; -23.51; 1.452] in
  let i := 0%nat in
  kappa ← write kappa GAS (2.72e-3 + 7.77e-5 * temp);
  i ← match opt with
      | 0%Z => mret PVDF
      | 1%Z => mret PTFE
      | 2%Z => mret PP
      | 3%Z => mret PES
      | _ =>
          Message "\n Function: ThermCond_Maxwell() has a wrong input argument of opt \n" [];;
          mret i
      end;
  a ← read A i;
  b ← read B i;
  kappa ← write kappa SOLID (a * 1e-4 * temp + b * 1e-2);
  ks ← read kappa SOLID;
  kg ← read kappa GAS;
  beta ← divide (ks - kg) (ks + 2 * kg);
  kg ← read kappa GAS;
  result ← divide (kg * (1 + 2 * beta * (1 - porosity))) (1 - beta * (1 - porosity));
  mret result.

(** The Maxwell mixing rule for gas and solid conductivities. *)
Definition Maxwell_mixing (kappa_gas kappa_solid porosity : R) : M R :=
  beta ← divide (kappa_solid - kappa_gas) (kappa_solid + 2 * kappa_gas);
  divide (kappa_gas * (1 + 2 * beta * (1 - porosity))) (1 - beta * (1 - porosity)).

(** The conductivity computed from one row [(A, B)] of the solid-phase
    coefficient table. *)
Definition Maxwell_from_row (A B temp porosity : R) : M R :=
  Maxwell_mixing (2.72e-3 + 7.77e-5 * temp) (A * 1e-4 * temp + B * 1e-2) porosity.

(** The diagnostic of the [default] branch of [ThermCond_Maxwell]. *)
Definition wrong_opt_message : message :=
  Msg "\n Function: ThermCond_Maxwell() has a wrong input argument of opt \n" [].

(** The three-term solubility polynomial in Celsius temperature. *)
Definition SatConc_polynomial (temp : R) : R :=
  0.2628 + 62.75e-6 * temp + 1.084e-6 * temp ^ 2.

(** The range warning of [SatConc], with the number it prints. *)
Definition SatConc_warning (t : R) : message :=
  Msg "[WARNING] Solubility correlation at %g C is out of temperature range.\n" [t].

(** The two warnings of [ThermCond_aqNaCl]. *)
Definition temperature_warning (T : R) : message :=
  Msg "[WARNING] Out of temperature range for %g in thermal conductivity correlation" [T].

Definition molality_warning (m : R) : message :=
  Msg "[WARNING] Out of molality range for %g in thermal conductivity correlation" [m].

(** The double sum of [ThermCond_aqNaCl]: three polynomials in Celsius
    temperature, weighted by increasing powers of the molality. *)
Definition ThermCond_aqNaCl_sum (T m : R) : R :=
  let t := T - 273.15 in
  (0.5621 + 0.00199 * t + -8.6e-6 * t ^ 2)
  + (-0.01394 + 0.000294 * t + -2.3e-6 * t ^ 2) * m
  + (0.00177 + -6.3e-5 * t + 4.5e-7 * t ^ 2) * m ^ 2.

(** A computation that ends in an error instead of a value. *)
Definition reports_error {A : Type} (m : M A) : Prop := exists e, value m = Err e.

(** ** Closed forms used by the further properties *)

(** The relative mole counts [wi[i] / MW[i]] of a mixture. *)
Definition moles (ws ms : list R) : list R := zip_with Rdiv ws ms.

(** A sum accumulated from 0, left to right, as the loops of the program
    accumulate. *)
Definition Rsum (l : list R) : R := fold_left Rplus l 0.

(** The gas-phase and solid-phase conductivities of [ThermCond_Maxwell]. *)
Definition kappa_gas (temp : R) : R := 2.72e-3 + 7.77e-5 * temp.

Definition kappa_solid (A B temp : R) : R := A * 1e-4 * temp + B * 1e-2.

(** The rows of the coefficient tables [A] and [B] of [ThermCond_Maxwell]. *)
Definition Maxwell_A (opt : Z) : R :=
  match opt with 1%Z => 5.769 | 2%Z => 12.5 | 3%Z => 4.167 | _ => 5.769 end.

Definition Maxwell_B (opt : Z) : R :=
  match opt with 1%Z => 8.914 | 2%Z => -23.51 | 3%Z => 1.452 | _ => 0.9144 end.

(** The double sum of [Density_aqNaCl]: five polynomials in the mass
    fraction, each scaled by its unit factor and a power of the temperature. *)
Definition Density_aqNaCl_sum (T w : R) : R :=
  (1.001 + 0.7666 * w + -0.0149 * w ^ 2 + 0.2663 * w ^ 3 + 0.8845 * w ^ 4) * 1e3
  + (-0.0214 + -3.496 * w + 10.02 * w ^ 2 + -6.56 * w ^ 3 + -31.37 * w ^ 4) * 1e0 * T
  + (-5.263 + 39.87 * w + 176.2 * w ^ 2 + 363.5 * w ^ 3 + -7.784 * w ^ 4) * 1e-3 * T ^ 2
  + (15.42 + -167.0 * w + 980.7 * w ^ 2 + -2573.0 * w ^ 3 + 876.6 * w ^ 4) * 1e-6 * T ^ 3
  + (-0.0276 + 0.2978 * w + -2.017 * w ^ 2 + 6.345 * w ^ 3 + -3.914 * w ^ 4) * 1e-6 * T ^ 4.

Definition Density_warning (T : R) : message :=
  Msg "[WARNING] Density correlation at %g C is out of temperature range.\n" [T].

Definition Viscosity_warning (w_nv : R) : message :=
  Msg "[WARNING] Viscosity correlation for salinity of %g is out of mass-fraction range.\n" [w_nv].

(** ** The same expressions on binary64 *)

(** [real] as the IEEE double of a double-precision build: every operation
    rounds to nearest and a division by zero delivers an infinity or a NaN
    instead of ending the computation.  Decimal literals denote the nearest
    binary64 number, as they do for the C compiler.  Arrays are lists read
    with a default that is never reached for indices in range. *)
#[local] Set Warnings "-inexact-float".

Module Binary64.

Definition Convert_w2m (w : float) : float :=
  (w / (1 - w) / 58.4428 * 1000)%float.

(** The loop of [ConvertX] from component [i] on, [n] components to go. *)
Fixpoint ConvertX_loop (i n : nat) (MW wi r : list float) (sum_N : float)
  : list float * float :=
  match n with
  | O => (r, sum_N)
  | S n' =>
      let r := <[i := (nth i wi nan / nth i MW nan)%float]> r in
      ConvertX_loop (S i) n' MW wi r (sum_N + nth i r nan)%float
  end.

Definition ConvertX (imat nmat : nat) (MW wi : list float) : float :=
  let '(r, sum_N) := ConvertX_loop 0 nmat MW wi (replicate nmat nan) 0%float in
  (nth imat r nan / sum_N)%float.

End Binary64.

(** * Verification *)

#[local] Arguments pow : simpl never.
#[local] Arguments mbind : simpl never.
#[local] Arguments mret : simpl never.
#[local] Arguments mthrow : simpl never.

(** ** Laws of the computation monad *)

Lemma M_eq {A} (m1 m2 : M A) :
  value m1 = value m2 -> log m1 = log m2 -> m1 = m2.
Proof. destruct m1, m2; simpl; intros -> ->; reflexivity. Qed.

Lemma bind_ret_l {A B} (a : A) (f : A -> M B) : mret a ≫= f = f a.
Proof. apply M_eq; reflexivity. Qed.

Lemma bind_ret_r {A} (m : M A) : m ≫= mret = m.
Proof.
  destruct m as [[a | e] l]; apply M_eq; try reflexivity.
  apply app_nil_r.
Qed.

Lemma bind_throw {A B} (e : error) (f : A -> M B) : mthrow e ≫= f = mthrow e.
Proof. reflexivity. Qed.

Lemma bind_assoc {A B C} (m : M A) (f : A -> M B) (g : B -> M C) :
  (m ≫= f) ≫= g = m ≫= (fun a => f a ≫= g).
Proof.
  destruct m as [[a | e] l]; [| reflexivity].
  unfold mbind, M_bind; simpl.
  destruct (f a) as [[b | e] l']; simpl; [| reflexivity].
  rewrite app_assoc; reflexivity.
Qed.

Lemma bind_ext {A B} (m : M A) (f g : A -> M B) :
  (forall a, f a = g a) -> m ≫= f = m ≫= g.
Proof.
  intros H. destruct m as [[a | e] l]; [| reflexivity].
  unfold mbind, M_bind; simpl. rewrite H; reflexivity.
Qed.

Lemma bind_Message {B} (format : string) (args : list R) (k : unit -> M B) :
  Message format args ≫= k = Run (value (k tt)) (Msg format args :: log (k tt)).
Proof. reflexivity. Qed.

(** ** Bounds on a quotient *)

Lemma Rdiv_lower (a b c : R) : 0 < b -> c * b < a -> c < a / b.
Proof.
  intros Hb H. apply (Rmult_lt_reg_r b); [assumption |].
  unfold Rdiv. rewrite Rmult_assoc, Rinv_l by lra. lra.
Qed.

Lemma Rdiv_upper (a b c : R) : 0 < b -> a < c * b -> a / b < c.
Proof.
  intros Hb H. apply (Rmult_lt_reg_r b); [assumption |].
  unfold Rdiv. rewrite Rmult_assoc, Rinv_l by lra. lra.
Qed.

(** ** Division, conditionals, arrays *)

Lemma divide_nonzero (x y : R) : y <> 0 -> divide x y = mret (x / y).
Proof. intros H. unfold divide. destruct (decide (y = 0)); [contradiction | reflexivity]. Qed.

Lemma divide_zero (x y : R) : y = 0 -> divide x y = mthrow DomainError.
Proof. intros H. unfold divide. destruct (decide (y = 0)); [reflexivity | contradiction]. Qed.

Lemma log_divide (x y : R) : log (divide x y) = [].
Proof. unfold divide. destruct (decide (y = 0)); reflexivity. Qed.

Lemma write_in_range (a : array) (i : nat) (v : R) :
  (i < length a)%nat -> write a i v = mret (<[i := Some v]> a).
Proof. intros H. unfold write. destruct (decide (i < length a)%nat); [reflexivity | contradiction]. Qed.

Lemma write_out_of_range (a : array) (i : nat) (v : R) :
  (length a <= i)%nat -> write a i v = mthrow BadIndex.
Proof. intros H. unfold write. destruct (decide (i < length a)%nat); [lia | reflexivity]. Qed.

(** Run the straight-line part of a computation: loops over a literal
    bound, accesses to literal arrays, returns. *)
Ltac run :=
  repeat first
    [ rewrite bind_assoc
    | rewrite bind_ret_l
    | rewrite bind_throw
    | rewrite write_in_range by (simpl; lia)
    | progress (unfold read, read2, readZ; simpl) ].

(** ** Saturation pressure *)

(** The summation loop of [psat_h2o] computes the 8-term power series. *)
Lemma psat_loop (x : R) :
  loop 0 C_LOOP (fun i sum1 => c ← read (initialised constants) i; mret (sum1 + c * x ^ i)) 0.0
  = mret (power_series constants x).
Proof.
  unfold C_LOOP, constants. run. f_equal.
  unfold power_series; simpl. lra.
Qed.

(** C9.  For every temperature [T], [psat_h2o T] is the computation the
    specification describes: the 8-term power series
    [S = sum_i constants[i] * x^i] in [x = 0.01 * (T - 338.15)], multiplied
    by [(H2O_TC / T - 1)], exponentiated and scaled by [H2O_PC].  Wherever
    the division by [T] is defined, it returns
    [H2O_PC * exp (S * (H2O_TC / T - 1))]. *)
Theorem psat_h2o_formula (T : R) :
  psat_h2o T = SaturationPressureWater T
  /\ (T <> 0 ->
      psat_h2o T
      = mret (H2O_PC * exp (power_series constants (0.01 * (T - 338.15)) * (H2O_TC / T - 1)))).
Proof.
  assert (H : psat_h2o T = SaturationPressureWater T).
  { unfold psat_h2o, SaturationPressureWater.
    rewrite psat_loop, bind_ret_l.
    apply bind_ext; intros q.
    unfold PSAT_A, PSAT_TP. do 3 f_equal. lra. }
  split; [exact H |].
  intros HT. rewrite H. unfold SaturationPressureWater.
  rewrite divide_nonzero, bind_ret_l by assumption. reflexivity.
Qed.

Lemma psat_h2o_formula_witness :
  psat_h2o 373.15
  = mret (H2O_PC * exp (power_series constants (0.01 * (373.15 - 338.15)) * (H2O_TC / 373.15 - 1))).
Proof. apply (proj2 (psat_h2o_formula 373.15)). lra. Defined.

(** ** Mass fraction to molar fraction, two components *)

(** The two passes of the loop of [ConvertX] over a 2-component system:
    the scratch array holds the relative mole counts and [sum_N] their sum
    (accumulated from [0], left to right). *)
Lemma ConvertX_two (imat : Z) (M0 M1 w0 w1 : R) :
  M0 <> 0 -> M1 <> 0 ->
  ConvertX imat 2 (initialised [M0; M1]) (initialised [w0; w1])
  = rimat ← readZ [Some (w0 / M0); Some (w1 / M1)] imat;
    xi ← divide rimat (0 + w0 / M0 + w1 / M1);
    mret xi.
Proof.
  intros H0 H1. unfold ConvertX.
  change (Z.to_nat 2) with 2%nat. simpl loop. simpl initialised.
  run. rewrite (divide_nonzero w0 M0) by assumption.
  run. rewrite (divide_nonzero w1 M1) by assumption.
  run. reflexivity.
Qed.

(** ** Vapour pressure over brine *)

(** C1.  For every temperature [T], [WaterVaporPressure_brine T 1.0] is
    exactly [psat_h2o T]: same value (or same failure of the division by
    [T]) and same messages.  With mass fraction of water 1 the molar
    fraction of water is 1, the nonvolatile fraction 0 and the activity
    coefficient 1. *)
Theorem WaterVaporPressure_brine_pure_water (T : R) :
  WaterVaporPressure_brine T 1.0 = psat_h2o T.
Proof.
  unfold WaterVaporPressure_brine. run.
  change [Some 1.0; Some (1 - 1.0)] with (initialised [1.0; 1 - 1.0]).
  change [Some 18.01534; Some 58.4428] with (initialised [18.01534; 58.4428]).
  rewrite ConvertX_two by lra. run.
  rewrite divide_nonzero by lra. run.
  rewrite <- (bind_ret_r (psat_h2o T)) at 2.
  apply bind_ext; intros p. f_equal.
  unfold ActivityCoefficient_h2o.
  replace (0 + 1.0 / 18.01534 + (1 - 1.0) / 58.4428) with (1.0 / 18.01534) by lra.
  rewrite Rdiv_diag by lra.
  unfold pow. lra.
Qed.

(** ** Maxwell model *)

(** A store that is overwritten before it is read is dead. *)
Lemma write_write {B} (a : array) (i : nat) (v1 v2 : R) (k : array -> M B) :
  (a' ← write a i v1; a'' ← write a' i v2; k a'') = (a'' ← write a i v2; k a'').
Proof.
  destruct (decide (i < length a)%nat) as [Hi | Hi].
  - rewrite (write_in_range a i v1), bind_ret_l by assumption.
    rewrite (write_in_range (<[i := Some v1]> a) i v2)
      by (rewrite length_insert; assumption).
    rewrite (write_in_range a i v2) by assumption.
    rewrite !bind_ret_l, list_insert_insert_eq. reflexivity.
  - rewrite !(write_out_of_range a i) by lia. reflexivity.
Qed.

Lemma switch_default {X : Type} (opt : Z) (x0 x1 x2 x3 d : X) :
  (opt < 0 \/ 3 < opt)%Z ->
  match opt with 0%Z => x0 | 1%Z => x1 | 2%Z => x2 | 3%Z => x3 | _ => d end = d.
Proof.
  intros H. destruct opt as [| p | p]; [lia | | reflexivity].
  destruct p as [[q | q |] | [q | q |] |]; first [reflexivity | lia].
Qed.

Lemma Maxwell_mixing_cases (kg ks porosity : R) :
  Maxwell_mixing kg ks porosity = mthrow DomainError
  \/ Maxwell_mixing kg ks porosity
     = divide (kg * (1 + 2 * ((ks - kg) / (ks + 2 * kg)) * (1 - porosity)))
              (1 - (ks - kg) / (ks + 2 * kg) * (1 - porosity)).
Proof.
  unfold Maxwell_mixing.
  destruct (decide (ks + 2 * kg = 0)) as [Hd | Hd].
  - left. rewrite divide_zero by assumption. reflexivity.
  - right. rewrite divide_nonzero, bind_ret_l by assumption. reflexivity.
Qed.

Lemma log_Maxwell_from_row (A B temp porosity : R) :
  log (Maxwell_from_row A B temp porosity) = [].
Proof.
  unfold Maxwell_from_row.
  destruct (Maxwell_mixing_cases (2.72e-3 + 7.77e-5 * temp) (A * 1e-4 * temp + B * 1e-2) porosity)
    as [-> | ->]; [reflexivity | apply log_divide].
Qed.

Lemma value_Maxwell_from_row (A B temp porosity : R) :
  value (Maxwell_from_row A B temp porosity) = Err DomainError
  \/ exists v, value (Maxwell_from_row A B temp porosity) = Ok v.
Proof.
  unfold Maxwell_from_row.
  destruct (Maxwell_mixing_cases (2.72e-3 + 7.77e-5 * temp) (A * 1e-4 * temp + B * 1e-2) porosity)
    as [-> | ->]; [left; reflexivity |].
  unfold divide. destruct (decide _); [left; reflexivity | right; eexists; reflexivity].
Qed.

Lemma Rdiv_le_lower (a b c : R) : 0 < b -> c * b <= a -> c <= a / b.
Proof.
  intros Hb H. apply (Rmult_le_reg_r b); [assumption |].
  unfold Rdiv. rewrite Rmult_assoc, Rinv_l by lra. lra.
Qed.

Lemma Rdiv_le_upper (a b c : R) : 0 < b -> a <= c * b -> a / b <= c.
Proof.
  intros Hb H. apply (Rmult_le_reg_r b); [assumption |].
  unfold Rdiv. rewrite Rmult_assoc, Rinv_l by lra. lra.
Qed.

(** The mixing rule between its two limits. *)
Lemma Maxwell_mixing_between (kg ks porosity : R) :
  0 < kg -> kg <= ks -> 0 <= porosity <= 1 ->
  exists v : R, Maxwell_mixing kg ks porosity = mret v /\ kg <= v <= ks.
Proof.
  intros Hkg Hks Hp. unfold Maxwell_mixing.
  rewrite divide_nonzero, bind_ret_l by lra.
  set (beta := (ks - kg) / (ks + 2 * kg)).
  assert (Hb : beta * (ks + 2 * kg) = ks - kg).
  { unfold beta, Rdiv. rewrite Rmult_assoc, Rinv_l by lra. lra. }
  assert (Hb0 : 0 <= beta).
  { unfold beta. apply Rmult_le_pos; [lra |]. apply Rlt_le, Rinv_0_lt_compat. lra. }
  assert (Hb1 : beta < 1) by nra.
  assert (Hd : 0 < 1 - beta * (1 - porosity)) by nra.
  rewrite divide_nonzero by lra.
  eexists; split; [reflexivity |]. split.
  - apply Rdiv_le_lower; [assumption |].
    assert (He : 0 <= beta * (1 - porosity)) by (apply Rmult_le_pos; lra).
    nra.
  - apply Rdiv_le_upper; [assumption |].
    assert (He : beta * (1 - porosity) * (ks + 2 * kg) <= ks - kg).
    { replace (beta * (1 - porosity) * (ks + 2 * kg))
        with ((1 - porosity) * (beta * (ks + 2 * kg))) by ring.
      rewrite Hb. nra. }
    lra.
Qed.

(** The [default] branch: the message, then the first row of the table. *)
Lemma ThermCond_Maxwell_default (temp porosity : R) (opt : Z) :
  (opt < 0 \/ 3 < opt)%Z ->
  ThermCond_Maxwell temp porosity opt
  = (Message (msg_format wrong_opt_message) [];; Maxwell_from_row 5.769 0.9144 temp porosity).
Proof.
  intros H. unfold ThermCond_Maxwell.
  rewrite switch_default by assumption.
  unfold GAS, SOLID. run.
  unfold Maxwell_from_row, Maxwell_mixing. simpl.
  apply bind_ext; intros _.
  apply bind_ext; intros beta. rewrite bind_ret_l. apply bind_ret_r.
Qed.

(** C5.  [ThermCond_Maxwell] returns, for all inputs, what the variant
    without the first gas-phase formula ([1.5e-3 * sqrt(temp)]) returns: the
    first assignment to [kappa[GAS]] is overwritten before it is read. *)
Theorem ThermCond_Maxwell_first_formula_dead (temp porosity : R) (opt : Z) :
  ThermCond_Maxwell temp porosity opt
  = ThermCond_Maxwell_second_formula_only temp porosity opt.
Proof.
  unfold ThermCond_Maxwell, ThermCond_Maxwell_second_formula_only.
  apply write_write.
Qed.

(** C10.  With a material code outside {0,1,2,3} the index [i] keeps its
    initial value 0 and [ThermCond_Maxwell] returns the conductivity of the
    first row of the coefficient table ([A = 5.769], [B = 0.9144]): a
    function of temperature and porosity alone, which never reads an
    unwritten cell or leaves a table. *)
Theorem ThermCond_Maxwell_wrong_opt_first_row (temp porosity : R) (opt : Z) :
  (opt < 0 \/ 3 < opt)%Z ->
  value (ThermCond_Maxwell temp porosity opt)
  = value (Maxwell_from_row 5.769 0.9144 temp porosity)
  /\ value (ThermCond_Maxwell temp porosity opt) <> Err Uninitialised
  /\ value (ThermCond_Maxwell temp porosity opt) <> Err BadIndex.
Proof.
  intros H. rewrite ThermCond_Maxwell_default by assumption.
  rewrite bind_Message. simpl value.
  destruct (value_Maxwell_from_row 5.769 0.9144 temp porosity) as [-> | [v ->]];
    repeat split; discriminate.
Qed.

Lemma ThermCond_Maxwell_wrong_opt_first_row_witness :
  (7 < 0 \/ 3 < 7)%Z
  /\ value (ThermCond_Maxwell 300 0.7 7) = value (Maxwell_from_row 5.769 0.9144 300 0.7).
Proof.
  split; [right; lia |].
  apply (ThermCond_Maxwell_wrong_opt_first_row 300 0.7 7). right; lia.
Defined.

(** The first row at 300 K and porosity 0.7. *)
Lemma Maxwell_from_row_300 :
  exists v, Maxwell_from_row 5.769 0.9144 300 0.7 = mret v /\ 0.0455 < v < 0.0456.
Proof.
  unfold Maxwell_from_row, Maxwell_mixing.
  rewrite divide_nonzero, bind_ret_l by lra.
  replace (5.769 * 1e-4 * 300 + 0.9144 * 1e-2 - (2.72e-3 + 7.77e-5 * 300)) with 0.156184 by lra.
  replace (5.769 * 1e-4 * 300 + 0.9144 * 1e-2 + 2 * (2.72e-3 + 7.77e-5 * 300)) with 0.234274 by lra.
  replace (2.72e-3 + 7.77e-5 * 300) with 0.02603 by lra.
  assert (Hb : 0.6666 < 0.156184 / 0.234274 < 0.6667).
  { split; [apply Rdiv_lower | apply Rdiv_upper]; lra. }
  set (beta := 0.156184 / 0.234274) in *.
  rewrite divide_nonzero by lra.
  eexists; split; [reflexivity |]. split.
  - apply Rdiv_lower; nra.
  - apply Rdiv_upper; nra.
Qed.

(** C2, as the code has it.  With a material code outside {0,1,2,3},
    [ThermCond_Maxwell] emits the "wrong input argument of opt" diagnostic
    on the message channel, and nothing else, and goes on to compute the
    conductivity from the first row of the coefficient table, as the mixing
    rule on that row does; for a temperature of at least 0 and a porosity in
    [0, 1] it returns that conductivity, a positive value, not an error. *)
Theorem ThermCond_Maxwell_wrong_opt_warns_and_continues (temp porosity : R) (opt : Z) :
  (opt < 0 \/ 3 < opt)%Z ->
  log (ThermCond_Maxwell temp porosity opt) = [wrong_opt_message]
  /\ value (ThermCond_Maxwell temp porosity opt)
     = value (Maxwell_from_row 5.769 0.9144 temp porosity)
  /\ (0 <= temp -> 0 <= porosity <= 1 ->
      exists v : R, value (ThermCond_Maxwell temp porosity opt) = Ok v /\ 0 < v).
Proof.
  intros H. rewrite ThermCond_Maxwell_default by assumption.
  rewrite bind_Message. simpl. rewrite log_Maxwell_from_row.
  split; [reflexivity |]. split; [reflexivity |].
  intros Ht Hp. unfold Maxwell_from_row.
  destruct (Maxwell_mixing_between (2.72e-3 + 7.77e-5 * temp)
              (5.769 * 1e-4 * temp + 0.9144 * 1e-2) porosity) as (v & -> & Hv);
    [lra | lra | assumption |].
  exists v. split; [reflexivity | lra].
Qed.

Lemma ThermCond_Maxwell_wrong_opt_warns_and_continues_witness :
  (-1 < 0 \/ 3 < -1)%Z
  /\ log (ThermCond_Maxwell 350 0.8 (-1)) = [wrong_opt_message]
  /\ exists v : R, value (ThermCond_Maxwell 350 0.8 (-1)) = Ok v /\ 0 < v.
Proof.
  split; [left; lia |].
  destruct (ThermCond_Maxwell_wrong_opt_warns_and_continues 350 0.8 (-1)) as (Hlog & _ & Hv);
    [left; lia |].
  split; [exact Hlog | apply Hv; lra].
Defined.

(** C2 as stated fails: material code 4 at 300 K and porosity 0.7 does not
    end in an error, it returns a conductivity (about 0.04555 W/m-K, the
    value of the first table row). *)
Lemma ThermCond_Maxwell_wrong_opt_returns_value :
  ~ reports_error (ThermCond_Maxwell 300 0.7 4)
  /\ exists v, value (ThermCond_Maxwell 300 0.7 4) = Ok v /\ 0.0455 < v < 0.0456.
Proof.
  assert (Hv : exists v, value (ThermCond_Maxwell 300 0.7 4) = Ok v /\ 0.0455 < v < 0.0456).
  { rewrite ThermCond_Maxwell_default by (right; lia).
    rewrite bind_Message. simpl value.
    destruct Maxwell_from_row_300 as (v & -> & Hv). exists v. split; [reflexivity | exact Hv]. }
  split; [| exact Hv].
  intros [e He]. destruct Hv as (v & Hv & _). congruence.
Qed.

(** ** Mass fraction to molality *)

Lemma Convert_w2m_value (w : R) :
  w <> 1 -> Convert_w2m w = mret (w / (1 - w) / 58.4428 * 1000).
Proof.
  intros Hw. unfold Convert_w2m.
  rewrite divide_nonzero, bind_ret_l by lra.
  rewrite divide_nonzero, bind_ret_l by lra.
  reflexivity.
Qed.

Lemma Convert_w2m_singular : Convert_w2m 1 = mthrow DomainError.
Proof. unfold Convert_w2m. rewrite divide_zero by lra. reflexivity. Qed.

(** [w / (1 - w)] grows with [w] below 1. *)
Lemma ratio_increasing (w1 w2 : R) :
  w1 < w2 -> w2 < 1 -> w1 / (1 - w1) < w2 / (1 - w2).
Proof.
  intros H12 H2. apply Rdiv_upper; [lra |].
  rewrite <- Rmult_div_swap. apply Rdiv_lower; [lra | nra].
Qed.

(** C6, as the code has it.  [Convert_w2m 0] is 0, and [Convert_w2m] is
    non-decreasing on the interval [0, 1): for [0 <= w1 <= w2 < 1] both
    calls return and the first molality is not above the second. *)
Theorem Convert_w2m_zero_and_nondecreasing :
  Convert_w2m 0 = mret 0
  /\ forall w1 w2 : R, 0 <= w1 -> w1 <= w2 -> w2 < 1 ->
       exists m1 m2 : R,
         Convert_w2m w1 = mret m1 /\ Convert_w2m w2 = mret m2 /\ m1 <= m2.
Proof.
  split.
  - rewrite Convert_w2m_value by lra. f_equal. lra.
  - intros w1 w2 H1 H12 H2.
    exists (w1 / (1 - w1) / 58.4428 * 1000), (w2 / (1 - w2) / 58.4428 * 1000).
    rewrite !Convert_w2m_value by lra. repeat split.
    destruct H12 as [H12 | ->]; [| lra].
    pose proof (ratio_increasing w1 w2 H12 H2). lra.
Qed.

Lemma Convert_w2m_zero_and_nondecreasing_witness :
  exists m1 m2 : R,
    Convert_w2m 0.1 = mret m1 /\ Convert_w2m 0.2 = mret m2 /\ m1 <= m2.
Proof. apply (proj2 Convert_w2m_zero_and_nondecreasing 0.1 0.2); lra. Defined.

(** C6 as stated fails on binary64: 0.0001 and the next number above it,
    both in [0, 1), are given the same molality, so the first is not
    strictly below the second. *)
Lemma Convert_w2m_binary64_plateau :
  (0 <=? 0.0001)%float = true
  /\ (0.0001 <? 0.00010000000000000002)%float = true
  /\ (0.00010000000000000002 <? 1)%float = true
  /\ Binary64.Convert_w2m 0.0001 = 0.0017112458848669129%float
  /\ Binary64.Convert_w2m 0.00010000000000000002 = 0.0017112458848669129%float
  /\ (Binary64.Convert_w2m 0.0001 <? Binary64.Convert_w2m 0.00010000000000000002)%float
     = false.
Proof. repeat split; vm_compute; reflexivity. Qed.

(** C8.  For every mass fraction in [0, 1) the divisor [1 - w] of
    [Convert_w2m] is nonzero and the call returns its value, no division by
    zero is reached; at mass fraction exactly 1 the computation reaches the
    division by zero, which nothing in the function guards. *)
Theorem Convert_w2m_division_defined :
  (forall w : R, 0 <= w < 1 ->
     1 - w <> 0 /\ Convert_w2m w = mret (w / (1 - w) / 58.4428 * 1000))
  /\ Convert_w2m 1 = mthrow DomainError.
Proof.
  split.
  - intros w Hw. split; [lra | apply Convert_w2m_value; lra].
  - exact Convert_w2m_singular.
Qed.

Lemma Convert_w2m_division_defined_witness :
  1 - 0.5 <> 0 /\ Convert_w2m 0.5 = mret (0.5 / (1 - 0.5) / 58.4428 * 1000).
Proof. apply (proj1 Convert_w2m_division_defined 0.5). lra. Defined.

(** The division by zero is reached at mass fraction 1 only. *)
Lemma Convert_w2m_DomainError_iff (w : R) :
  value (Convert_w2m w) = Err DomainError <-> w = 1.
Proof.
  split.
  - intros H. destruct (decide (w = 1)) as [Hw | Hw]; [assumption |].
    rewrite Convert_w2m_value in H by assumption. discriminate.
  - intros ->. rewrite Convert_w2m_singular. reflexivity.
Qed.

(** ** Normalisation of the molar fractions *)

Lemma mole_counts_positive (M0 M1 w : R) :
  0 < M0 -> 0 < M1 -> 0 <= w <= 1 -> 0 < 0 + w / M0 + (1 - w) / M1.
Proof.
  intros H0 H1 Hw. unfold Rdiv.
  pose proof (Rinv_0_lt_compat M0 H0) as I0.
  pose proof (Rinv_0_lt_compat M1 H1) as I1.
  destruct (Rle_lt_dec w (1 / 2)); nra.
Qed.

(** C7, as the code has it.  For two components with positive molar
    weights and mass fractions [w] and [1 - w], [0 <= w <= 1], both calls of
    [ConvertX] (component 0 and component 1 of 2) return, each molar
    fraction lies in [0, 1], and the sum of the two is 1 to within 1e-9. *)
Theorem ConvertX_two_components_normalised (M0 M1 w : R) :
  0 < M0 -> 0 < M1 -> 0 <= w <= 1 ->
  exists x0 x1 : R,
    ConvertX 0 2 (initialised [M0; M1]) (initialised [w; 1 - w]) = mret x0
    /\ ConvertX 1 2 (initialised [M0; M1]) (initialised [w; 1 - w]) = mret x1
    /\ 0 <= x0 <= 1 /\ 0 <= x1 <= 1
    /\ 1 - 1e-9 <= x0 + x1 <= 1 + 1e-9.
Proof.
  intros H0 H1 Hw.
  pose proof (mole_counts_positive M0 M1 w H0 H1 Hw) as Hs.
  rewrite !ConvertX_two by lra. run.
  rewrite !divide_nonzero by lra. run.
  eexists _, _. split; [reflexivity |]. split; [reflexivity |].
  set (a := w / M0) in *. set (b := (1 - w) / M1) in *.
  assert (Ha : 0 <= a).
  { unfold a, Rdiv. apply Rmult_le_pos; [lra | apply Rlt_le, Rinv_0_lt_compat; lra]. }
  assert (Hb : 0 <= b).
  { unfold b, Rdiv. apply Rmult_le_pos; [lra | apply Rlt_le, Rinv_0_lt_compat; lra]. }
  assert (Hsum : a / (0 + a + b) + b / (0 + a + b) = 1).
  { rewrite <- Rdiv_plus_distr. apply Rdiv_diag_eq; lra. }
  assert (Hx0 : 0 <= a / (0 + a + b)).
  { unfold Rdiv. apply Rmult_le_pos; [lra | apply Rlt_le, Rinv_0_lt_compat; lra]. }
  assert (Hx1 : 0 <= b / (0 + a + b)).
  { unfold Rdiv. apply Rmult_le_pos; [lra | apply Rlt_le, Rinv_0_lt_compat; lra]. }
  repeat split; lra.
Qed.

Lemma ConvertX_two_components_normalised_witness :
  exists x0 x1 : R,
    ConvertX 0 2 (initialised [18.01534; 58.4428]) (initialised [0.9; 1 - 0.9]) = mret x0
    /\ ConvertX 1 2 (initialised [18.01534; 58.4428]) (initialised [0.9; 1 - 0.9]) = mret x1
    /\ 0 <= x0 <= 1 /\ 0 <= x1 <= 1
    /\ 1 - 1e-9 <= x0 + x1 <= 1 + 1e-9.
Proof. apply (ConvertX_two_components_normalised 18.01534 58.4428 0.9); lra. Defined.

(** C7 as stated fails on binary64: for water and NaCl at [w = 0.002] the
    two molar fractions sum to 0.99999999999999989, not to 1. *)
Lemma ConvertX_binary64_sum_below_one :
  (0 <=? 0.002)%float = true /\ (0.002 <=? 1)%float = true
  /\ (Binary64.ConvertX 0 2 [18.01534; 58.4428] [0.002; 1 - 0.002]
      + Binary64.ConvertX 1 2 [18.01534; 58.4428] [0.002; 1 - 0.002])%float
     = 0.99999999999999989%float
  /\ (Binary64.ConvertX 0 2 [18.01534; 58.4428] [0.002; 1 - 0.002]
      + Binary64.ConvertX 1 2 [18.01534; 58.4428] [0.002; 1 - 0.002] =? 1)%float
     = false.
Proof. repeat split; vm_compute; reflexivity. Qed.

(** ** Solubility of NaCl *)

Lemma SatConc_eq (t : R) :
  SatConc t
  = (when (t < 0 \/ t > 450) (Message (msg_format (SatConc_warning t)) [t]);;
     mret (SatConc_polynomial (t - 273.15))).
Proof.
  unfold SatConc. apply bind_ext; intros _. run.
  f_equal. unfold SatConc_polynomial, pow. lra.
Qed.

(** The warning is decided on the Kelvin argument [t] itself. *)
Lemma SatConc_log (t : R) :
  log (SatConc t) = if decide (t < 0 \/ t > 450) then [SatConc_warning t] else [].
Proof.
  rewrite SatConc_eq. unfold when.
  destruct (decide (t < 0 \/ t > 450)); reflexivity.
Qed.

(** The warning is not fatal: every call returns the polynomial of the
    Celsius temperature. *)
Lemma SatConc_value (t : R) :
  value (SatConc t) = Ok (SatConc_polynomial (t - 273.15)).
Proof.
  rewrite SatConc_eq. unfold when.
  destruct (decide (t < 0 \/ t > 450)); reflexivity.
Qed.

(** At 500 K the warning is emitted and the extrapolated value returned. *)
Lemma SatConc_500 :
  SatConc 500 = Run (Ok (SatConc_polynomial 226.85)) [SatConc_warning 500].
Proof.
  apply M_eq.
  - rewrite SatConc_value. cbn [value]. do 2 f_equal. lra.
  - rewrite SatConc_log. cbn [log]. destruct (decide (500 < 0 \/ 500 > 450)) as [_ | H];
      [reflexivity | exfalso; apply H; right; lra].
Qed.

(** C4, the code at two inputs.  At 460 K the converted temperature,
    186.85 C, lies inside [0 C, 450 C] and [SatConc] warns all the same; at
    200 K the converted temperature, -73.15 C, lies outside and [SatConc]
    stays silent: the test reads the Kelvin argument, not the converted
    temperature. *)
Theorem SatConc_range_check_reads_kelvin :
  (0 <= 460 - 273.15 <= 450 /\ log (SatConc 460) = [SatConc_warning 460])
  /\ (200 - 273.15 < 0 /\ log (SatConc 200) = []).
Proof.
  rewrite !SatConc_log. split; (split; [lra |]).
  - destruct (decide (460 < 0 \/ 460 > 450)) as [_ | H];
      [reflexivity | exfalso; apply H; right; lra].
  - destruct (decide (200 < 0 \/ 200 > 450)) as [[H | H] | _];
      [lra | lra | reflexivity].
Qed.

(** ** Thermal conductivity of the NaCl solution *)

Lemma ThermCond_aqNaCl_eq (id_message : Z) (T w_nacl : R) :
  ThermCond_aqNaCl id_message T w_nacl
  = (m ← Convert_w2m w_nacl;
     when (id_message < 2)%Z
       (when (T < 295 \/ T > 365) (Message (msg_format (temperature_warning T)) [T]);;
        when (m <= 6.0) (Message (msg_format (molality_warning m)) [m]));;
     mret (ThermCond_aqNaCl_sum T m)).
Proof.
  unfold ThermCond_aqNaCl. apply bind_ext; intros m. apply bind_ext; intros _.
  run. f_equal. unfold ThermCond_aqNaCl_sum, pow. lra.
Qed.

(** The messages of one call, away from the singular mass fraction. *)
Lemma ThermCond_aqNaCl_log (id_message : Z) (T w_nacl : R) :
  w_nacl <> 1 ->
  log (ThermCond_aqNaCl id_message T w_nacl)
  = let m := w_nacl / (1 - w_nacl) / 58.4428 * 1000 in
    if decide (id_message < 2)%Z then
      (if decide (T < 295 \/ T > 365) then [temperature_warning T] else [])
      ++ (if decide (m <= 6.0) then [molality_warning m] else [])
    else [].
Proof.
  intros Hw. rewrite ThermCond_aqNaCl_eq, Convert_w2m_value, bind_ret_l by assumption.
  unfold when. simpl.
  destruct (decide (id_message < 2)%Z); [| reflexivity].
  destruct (decide (T < 295 \/ T > 365)), (decide (_ <= 6.0)); reflexivity.
Qed.

(** The returned value does not depend on the verbosity, nor on whether a
    warning was emitted. *)
Lemma ThermCond_aqNaCl_value (id_message : Z) (T w_nacl : R) :
  value (ThermCond_aqNaCl id_message T w_nacl)
  = value (m ← Convert_w2m w_nacl; mret (ThermCond_aqNaCl_sum T m)).
Proof.
  rewrite ThermCond_aqNaCl_eq.
  destruct (Convert_w2m w_nacl) as [[m | e] l]; [| reflexivity].
  unfold when, mbind, M_bind; simpl.
  destruct (decide (id_message < 2)%Z); [| reflexivity].
  destruct (decide (T < 295 \/ T > 365)), (decide (m <= 6.0)); reflexivity.
Qed.

(** C3, the code at two inputs, with the warnings enabled ([id_message = 0])
    and the temperature in range (300 K).  At mass fraction 0.05 the
    molality, about 0.9 mol/kg, is within the range and the molality warning
    is emitted; at mass fraction 0.3 the molality, about 7.3 mol/kg, exceeds
    6.0 and no warning is emitted: the test is [m <= 6.0], the reverse of
    the range check. *)
Theorem ThermCond_aqNaCl_molality_check_reversed :
  (exists m : R,
     Convert_w2m 0.05 = mret m /\ m <= 6.0
     /\ log (ThermCond_aqNaCl 0 300 0.05) = [molality_warning m])
  /\ (exists m : R,
        Convert_w2m 0.3 = mret m /\ 6.0 < m
        /\ log (ThermCond_aqNaCl 0 300 0.3) = []).
Proof.
  assert (H1 : 0.05 / (1 - 0.05) / 58.4428 * 1000 <= 6.0).
  { assert (0.05 / (1 - 0.05) < 0.06) by (apply Rdiv_upper; lra). lra. }
  assert (H2 : 6.0 < 0.3 / (1 - 0.3) / 58.4428 * 1000).
  { assert (0.42 < 0.3 / (1 - 0.3)) by (apply Rdiv_lower; lra). lra. }
  split; eexists; (split; [apply Convert_w2m_value; lra |]);
    (split; [eassumption |]);
    rewrite ThermCond_aqNaCl_log by lra; cbv zeta.
  - destruct (decide (0 < 2)%Z) as [_ | H]; [| lia].
    destruct (decide (300 < 295 \/ 300 > 365)) as [[H | H] | _]; [lra | lra |].
    destruct (decide (_ <= 6.0)) as [_ | H]; [reflexivity | contradiction].
  - destruct (decide (0 < 2)%Z) as [_ | H]; [| lia].
    destruct (decide (300 < 295 \/ 300 > 365)) as [[H | H] | _]; [lra | lra |].
    destruct (decide (_ <= 6.0)) as [H | _]; [lra | reflexivity].
Qed.

(** * Further properties of the program *)

(** ** Saturation pressure: domain and sign *)

Lemma psat_h2o_eq (T : R) :
  psat_h2o T
  = q ← divide H2O_TC T;
    mret (H2O_PC * exp (power_series constants (PSAT_A * (T - PSAT_TP)) * (q - 1.0))).
Proof. unfold psat_h2o. rewrite psat_loop, bind_ret_l. reflexivity. Qed.

Lemma H2O_PC_positive : 0 < H2O_PC.
Proof. unfold H2O_PC. lra. Qed.

(** X1.  [psat_h2o] reaches a division by zero at [T = 0] and nowhere else;
    at every other temperature it returns, without a message, a pressure
    that is never negative. *)
Theorem psat_h2o_defined_and_nonnegative (T : R) :
  (T = 0 -> psat_h2o T = mthrow DomainError)
  /\ (T <> 0 -> exists p : R, psat_h2o T = mret p /\ 0 <= p).
Proof.
  rewrite psat_h2o_eq. split; intros HT.
  - rewrite divide_zero by assumption. reflexivity.
  - rewrite divide_nonzero, bind_ret_l by assumption.
    eexists; split; [reflexivity |].
    apply Rlt_le, Rmult_lt_0_compat; [apply H2O_PC_positive | apply exp_pos].
Qed.

Lemma psat_h2o_defined_and_nonnegative_witness :
  exists p : R, psat_h2o 298.15 = mret p /\ 0 <= p.
Proof. apply (proj2 (psat_h2o_defined_and_nonnegative 298.15)). lra. Defined.

(** X2.  At the critical temperature the exponent vanishes and [psat_h2o]
    returns the critical pressure; the same holds at any temperature where
    the power series vanishes. *)
Theorem psat_h2o_critical_pressure (T : R) :
  T <> 0 ->
  T = H2O_TC \/ power_series constants (PSAT_A * (T - PSAT_TP)) = 0 ->
  psat_h2o T = mret H2O_PC.
Proof.
  intros HT H. rewrite psat_h2o_eq, divide_nonzero, bind_ret_l by assumption.
  f_equal. rewrite <- (Rmult_1_r H2O_PC) at 2. f_equal.
  rewrite <- exp_0. f_equal.
  destruct H as [-> | ->]; [| lra].
  rewrite Rdiv_diag by assumption. lra.
Qed.

Lemma psat_h2o_critical_pressure_witness : psat_h2o H2O_TC = mret H2O_PC.
Proof.
  apply (psat_h2o_critical_pressure H2O_TC); [unfold H2O_TC; lra | left; reflexivity].
Defined.

(** ** Activity coefficient: monotonicity and sign *)

(** X3.  [ActivityCoefficient_h2o] is non-increasing in the nonvolatile
    molar fraction on [x_nv >= 0], starting from 1 at [x_nv = 0]: it never
    exceeds 1 there. *)
Theorem ActivityCoefficient_h2o_nonincreasing (x y : R) :
  0 <= x -> x <= y ->
  ActivityCoefficient_h2o y <= ActivityCoefficient_h2o x
  /\ ActivityCoefficient_h2o x <= ActivityCoefficient_h2o 0
  /\ ActivityCoefficient_h2o 0 = 1.
Proof.
  intros Hx Hxy. unfold ActivityCoefficient_h2o, pow. repeat split; nra.
Qed.

Lemma ActivityCoefficient_h2o_nonincreasing_witness :
  ActivityCoefficient_h2o 0.2 <= ActivityCoefficient_h2o 0.1.
Proof. apply (ActivityCoefficient_h2o_nonincreasing 0.1 0.2); lra. Defined.

(** X4.  The activity coefficient is positive, and at most 1, for
    nonvolatile molar fractions up to 0.29, and negative from 0.3 on. *)
Theorem ActivityCoefficient_h2o_sign (x : R) :
  (0 <= x <= 0.29 -> 0 < ActivityCoefficient_h2o x <= 1)
  /\ (0.3 <= x -> ActivityCoefficient_h2o x < 0).
Proof.
  unfold ActivityCoefficient_h2o, pow. split; intros H; [split |]; nra.
Qed.

Lemma ActivityCoefficient_h2o_sign_witness :
  0 < ActivityCoefficient_h2o 0.1 <= 1 /\ ActivityCoefficient_h2o 0.5 < 0.
Proof.
  split.
  - apply (proj1 (ActivityCoefficient_h2o_sign 0.1)). lra.
  - apply (proj2 (ActivityCoefficient_h2o_sign 0.5)). lra.
Defined.

(** ** Maxwell model: the selected row, limits and bounds *)

(** Every call, whatever the material code: the diagnostic if the code is
    unknown, then the mixing rule on the selected row. *)
Lemma ThermCond_Maxwell_eq (temp porosity : R) (opt : Z) :
  ThermCond_Maxwell temp porosity opt
  = ((if decide (0 <= opt <= 3)%Z then mret tt
      else Message (msg_format wrong_opt_message) []);;
     Maxwell_mixing (kappa_gas temp)
       (kappa_solid (Maxwell_A opt) (Maxwell_B opt) temp) porosity).
Proof.
  destruct (decide (0 <= opt <= 3)%Z) as [Hopt | Hopt].
  - assert (H : opt = 0%Z \/ opt = 1%Z \/ opt = 2%Z \/ opt = 3%Z) by lia.
    destruct H as [-> | [-> | [-> | ->]]];
      unfold ThermCond_Maxwell, GAS, SOLID, PVDF, PTFE, PP, PES; run;
      unfold Maxwell_mixing, kappa_gas, kappa_solid; simpl;
      (apply bind_ext; intros beta); rewrite bind_ret_l; apply bind_ret_r.
  - rewrite ThermCond_Maxwell_default by lia.
    assert (HA : Maxwell_A opt = 5.769 /\ Maxwell_B opt = 0.9144).
    { destruct opt as [| [[q | q |] | [q | q |] |] | p]; first [split; reflexivity | lia]. }
    destruct HA as [-> ->]. reflexivity.
Qed.

Lemma value_mret {A} (a : A) : value (mret a) = Ok a.
Proof. reflexivity. Qed.

Lemma value_skip_diagnostic {B} (P : Prop) `{Decision P} (msg : M unit) (k : M B) :
  value msg = Ok tt ->
  value ((if decide P then mret tt else msg);; k) = value k.
Proof.
  intros Hmsg. destruct (decide P); [rewrite bind_ret_l; reflexivity |].
  unfold mbind, M_bind. rewrite Hmsg. reflexivity.
Qed.

Lemma value_ThermCond_Maxwell (temp porosity : R) (opt : Z) :
  value (ThermCond_Maxwell temp porosity opt)
  = value (Maxwell_mixing (kappa_gas temp)
             (kappa_solid (Maxwell_A opt) (Maxwell_B opt) temp) porosity).
Proof. rewrite ThermCond_Maxwell_eq. apply value_skip_diagnostic. reflexivity. Qed.

(** X5.  With a material code in {0,1,2,3}, [ThermCond_Maxwell] emits no
    message and applies the mixing rule to the gas conductivity
    [2.72e-3 + 7.77e-5 * temp] and the solid conductivity
    [A[opt] * 1e-4 * temp + B[opt] * 1e-2] of the row [opt]. *)
Theorem ThermCond_Maxwell_known_material (temp porosity : R) (opt : Z) :
  (0 <= opt <= 3)%Z ->
  ThermCond_Maxwell temp porosity opt
  = Maxwell_mixing (kappa_gas temp)
      (kappa_solid (Maxwell_A opt) (Maxwell_B opt) temp) porosity
  /\ log (ThermCond_Maxwell temp porosity opt) = [].
Proof.
  intros Hopt. rewrite ThermCond_Maxwell_eq.
  destruct (decide (0 <= opt <= 3)%Z); [| contradiction].
  rewrite bind_ret_l. split; [reflexivity |].
  apply (log_Maxwell_from_row (Maxwell_A opt) (Maxwell_B opt)).
Qed.

Lemma ThermCond_Maxwell_known_material_witness :
  ThermCond_Maxwell 330 0.75 2
  = Maxwell_mixing (kappa_gas 330) (kappa_solid 12.5 (-23.51) 330) 0.75.
Proof. apply (ThermCond_Maxwell_known_material 330 0.75 2). lia. Defined.

(** From 203 K on, every row of the table gives a solid conductivity above
    the (positive) gas conductivity. *)
Lemma kappa_ordered (temp : R) (opt : Z) :
  203 <= temp ->
  0 < kappa_gas temp
  /\ kappa_gas temp <= kappa_solid (Maxwell_A opt) (Maxwell_B opt) temp.
Proof.
  intros Ht. unfold kappa_gas, kappa_solid. split; [lra |].
  destruct opt as [| [[q | q |] | [q | q |] |] | p]; simpl Maxwell_A; simpl Maxwell_B; lra.
Qed.

(** X6.  From 203 K on and for a porosity in [0, 1], [ThermCond_Maxwell]
    divides by nothing that vanishes, for every material code, and the
    effective conductivity it returns is at least the gas conductivity and
    exceeds the solid conductivity of the selected row by no more than one
    part in 10^9. *)
Theorem ThermCond_Maxwell_bounded_by_gas_and_solid (temp porosity : R) (opt : Z) :
  203 <= temp -> 0 <= porosity <= 1 ->
  exists v : R,
    value (ThermCond_Maxwell temp porosity opt) = Ok v
    /\ kappa_gas temp <= v
    /\ v <= (1 + 1e-9) * kappa_solid (Maxwell_A opt) (Maxwell_B opt) temp.
Proof.
  intros Ht Hp. rewrite value_ThermCond_Maxwell.
  destruct (kappa_ordered temp opt Ht) as [Hg Hs].
  destruct (Maxwell_mixing_between _ _ porosity Hg Hs Hp) as (v & -> & Hv).
  exists v. split; [reflexivity |]. split; [lra | nra].
Qed.

Lemma ThermCond_Maxwell_bounded_by_gas_and_solid_witness :
  exists v : R,
    value (ThermCond_Maxwell 330 0.75 2) = Ok v
    /\ kappa_gas 330 <= v
    /\ v <= (1 + 1e-9) * kappa_solid (Maxwell_A 2) (Maxwell_B 2) 330.
Proof. apply (ThermCond_Maxwell_bounded_by_gas_and_solid 330 0.75 2); lra. Defined.

(** X7.  The two limits of the mixing rule, from 203 K on and for every
    material code: at porosity 1 [ThermCond_Maxwell] returns the gas
    conductivity, at porosity 0 the solid conductivity of the selected row
    to within one part in 10^9. *)
Theorem ThermCond_Maxwell_porosity_limits (temp : R) (opt : Z) :
  203 <= temp ->
  value (ThermCond_Maxwell temp 1 opt) = Ok (kappa_gas temp)
  /\ exists v : R,
       value (ThermCond_Maxwell temp 0 opt) = Ok v
       /\ (1 - 1e-9) * kappa_solid (Maxwell_A opt) (Maxwell_B opt) temp <= v
       /\ v <= (1 + 1e-9) * kappa_solid (Maxwell_A opt) (Maxwell_B opt) temp.
Proof.
  intros Ht. rewrite !value_ThermCond_Maxwell.
  destruct (kappa_ordered temp opt Ht) as [Hg Hs].
  set (kg := kappa_gas temp) in *.
  set (ks := kappa_solid (Maxwell_A opt) (Maxwell_B opt) temp) in *.
  unfold Maxwell_mixing.
  rewrite !divide_nonzero, !bind_ret_l by lra.
  set (beta := (ks - kg) / (ks + 2 * kg)).
  assert (Hb : beta * (ks + 2 * kg) = ks - kg).
  { unfold beta, Rdiv. rewrite Rmult_assoc, Rinv_l by lra. lra. }
  assert (Hb1 : (1 - beta) * (ks + 2 * kg) = 3 * kg) by lra.
  assert (Hd : 1 - beta <> 0) by (intros H0; rewrite H0 in Hb1; lra).
  split.
  - rewrite divide_nonzero, value_mret by lra. f_equal.
    replace (1 - beta * (1 - 1)) with 1 by lra. lra.
  - rewrite divide_nonzero, value_mret by lra.
    eexists. split; [reflexivity |].
    assert (Hv : kg * (1 + 2 * beta * (1 - 0)) / (1 - beta * (1 - 0)) = ks).
    { replace (1 - beta * (1 - 0)) with (1 - beta) by lra.
      apply (Rmult_eq_reg_r ((1 - beta) * (ks + 2 * kg))); [| rewrite Hb1; lra].
      unfold Rdiv.
      replace (kg * (1 + 2 * beta * (1 - 0)) * / (1 - beta) * ((1 - beta) * (ks + 2 * kg)))
        with (kg * (1 + 2 * beta) * (ks + 2 * kg) * ((1 - beta) * / (1 - beta))) by ring.
      rewrite Rinv_r by assumption. nra. }
    rewrite Hv. split; nra.
Qed.

Lemma ThermCond_Maxwell_porosity_limits_witness :
  value (ThermCond_Maxwell 330 1 0) = Ok (kappa_gas 330)
  /\ exists v : R,
       value (ThermCond_Maxwell 330 0 0) = Ok v
       /\ (1 - 1e-9) * kappa_solid (Maxwell_A 0) (Maxwell_B 0) 330 <= v
       /\ v <= (1 + 1e-9) * kappa_solid (Maxwell_A 0) (Maxwell_B 0) 330.
Proof. apply (ThermCond_Maxwell_porosity_limits 330 0). lra. Defined.

(** ** Mass fraction to molar fraction, any number of components *)

Lemma read_initialised (l : list R) (i : nat) (v : R) :
  l !! i = Some v -> read (initialised l) i = mret v.
Proof.
  intros H. unfold read, initialised. rewrite list_lookup_fmap, H. reflexivity.
Qed.

Lemma read_write_same (a : array) (i : nat) (v : R) :
  (i < length a)%nat -> read (<[i := Some v]> a) i = mret v.
Proof.
  intros H. unfold read. rewrite list_lookup_insert_eq by assumption. reflexivity.
Qed.

Lemma moles_lookup (ws ms : list R) (i : nat) (w m : R) :
  ws !! i = Some w -> ms !! i = Some m -> moles ws ms !! i = Some (w / m).
Proof.
  intros Hw Hm. unfold moles. rewrite lookup_zip_with, Hw. simpl. rewrite Hm. reflexivity.
Qed.

Lemma length_moles (ws ms : list R) :
  length ms = length ws -> length (moles ws ms) = length ws.
Proof. intros H. unfold moles. rewrite length_zip_with. lia. Qed.

(** The loop of [ConvertX], from component [from] on: the scratch array
    holds the mole counts of the components already visited, the remaining
    cells are still unwritten, and [sum_N] has accumulated the visited
    counts. *)
Lemma ConvertX_loop (ms ws : list R) :
  length ms = length ws ->
  Forall (fun m => m <> 0) ms ->
  forall (k from : nat) (s : R),
    (from + k = length ws)%nat ->
    loop from k (fun i '(r, sum_N) =>
        w ← read (initialised ws) i;
        mw ← read (initialised ms) i;
        q ← divide w mw;
        r ← write r i q;
        ri ← read r i;
        mret (r, sum_N + ri))
      ((Some <$> take from (moles ws ms)) ++ replicate k None, s)
    = mret (Some <$> moles ws ms, fold_left Rplus (drop from (moles ws ms)) s).
Proof.
  intros Hlen Hms. pose proof (length_moles ws ms Hlen) as Hq.
  induction k as [| k IH]; intros from s Hk.
  - simpl. rewrite take_ge, drop_ge, app_nil_r by lia. reflexivity.
  - destruct (lookup_lt_is_Some_2 ws from) as [w Hw]; [lia |].
    destruct (lookup_lt_is_Some_2 ms from) as [m Hm]; [lia |].
    pose proof (Forall_lookup_1 _ _ _ _ Hms Hm) as Hm0.
    pose proof (moles_lookup ws ms from w m Hw Hm) as Hqi.
    assert (Hfrom : length (Some <$> take from (moles ws ms)) = from).
    { rewrite length_fmap, length_take. lia. }
    cbn [loop].
    rewrite (read_initialised ws from w Hw), bind_ret_l.
    rewrite (read_initialised ms from m Hm), bind_ret_l.
    rewrite divide_nonzero, bind_ret_l by assumption.
    rewrite write_in_range, bind_ret_l
      by (rewrite length_app, Hfrom, length_replicate; lia).
    rewrite read_write_same, bind_ret_l
      by (rewrite length_app, Hfrom, length_replicate; lia).
    rewrite bind_ret_l.
    rewrite insert_app_r_alt, Hfrom, Nat.sub_diag by lia.
    cbn [replicate insert list_insert].
    rewrite (cons_middle (Some (w / m))), app_assoc.
    change [Some (w / m)] with (Some <$> [w / m]).
    rewrite <- fmap_app, <- (take_S_r _ _ _ Hqi).
    rewrite IH by lia.
    rewrite (drop_S _ _ _ Hqi). reflexivity.
Qed.

(** [ConvertX] on arrays that hold [nmat] components with nonzero molar
    weights: what is left after the loop is the read of [r[imat]] and the
    division by [sum_N]. *)
Lemma ConvertX_run (imat : Z) (ms ws : list R) :
  length ms = length ws ->
  Forall (fun m => m <> 0) ms ->
  ConvertX imat (Z.of_nat (length ws)) (initialised ms) (initialised ws)
  = rimat ← readZ (initialised (moles ws ms)) imat;
    xi ← divide rimat (Rsum (moles ws ms));
    mret xi.
Proof.
  intros Hlen Hms. unfold ConvertX. rewrite Nat2Z.id.
  change (uninitialised (length ws))
    with ((Some <$> take 0 (moles ws ms)) ++ replicate (length ws) None).
  rewrite (ConvertX_loop ms ws Hlen Hms (length ws) 0%nat) by lia.
  rewrite bind_ret_l. reflexivity.
Qed.

Lemma readZ_initialised (l : list R) (i : nat) (v : R) :
  l !! i = Some v -> readZ (initialised l) (Z.of_nat i) = mret v.
Proof.
  intros H. unfold readZ. destruct (decide (0 <= Z.of_nat i)%Z); [| lia].
  rewrite Nat2Z.id. apply read_initialised. assumption.
Qed.

Lemma readZ_outside (l : list R) (i : Z) :
  (i < 0 \/ Z.of_nat (length l) <= i)%Z -> readZ (initialised l) i = mthrow BadIndex.
Proof.
  intros H. unfold readZ. destruct (decide (0 <= i)%Z); [| reflexivity].
  unfold read, initialised. rewrite list_lookup_fmap, lookup_ge_None_2 by lia.
  reflexivity.
Qed.

(** X8.  [ConvertX] on [nmat] components with nonzero molar weights returns,
    for a component index in range and a nonzero total, the mole count
    [wi[imat] / MW[imat]] of the component divided by the sum of the mole
    counts of all components. *)
Theorem ConvertX_mole_fraction (ms ws : list R) (i : nat) (w m : R) :
  length ms = length ws ->
  Forall (fun m => m <> 0) ms ->
  ws !! i = Some w -> ms !! i = Some m ->
  Rsum (moles ws ms) <> 0 ->
  ConvertX (Z.of_nat i) (Z.of_nat (length ws)) (initialised ms) (initialised ws)
  = mret (w / m / Rsum (moles ws ms)).
Proof.
  intros Hlen Hms Hw Hm Hsum. rewrite ConvertX_run by assumption.
  rewrite (readZ_initialised _ _ _ (moles_lookup ws ms i w m Hw Hm)), bind_ret_l.
  rewrite divide_nonzero, bind_ret_l by assumption. reflexivity.
Qed.

Lemma three_components_nonzero :
  Forall (fun m : R => m <> 0) [18.01534; 58.4428; 74.5513].
Proof. repeat constructor; lra. Qed.

Lemma three_components_total :
  Rsum (moles [0.9; 0.06; 0.04] [18.01534; 58.4428; 74.5513])
  = 0.9 / 18.01534 + 0.06 / 58.4428 + 0.04 / 74.5513.
Proof. unfold Rsum, moles. simpl. lra. Qed.

Lemma three_components_total_positive :
  0 < Rsum (moles [0.9; 0.06; 0.04] [18.01534; 58.4428; 74.5513]).
Proof.
  rewrite three_components_total.
  assert (0 < 0.9 / 18.01534) by (apply Rdiv_lower; lra).
  assert (0 < 0.06 / 58.4428) by (apply Rdiv_lower; lra).
  assert (0 < 0.04 / 74.5513) by (apply Rdiv_lower; lra).
  lra.
Qed.

Lemma ConvertX_mole_fraction_witness :
  ConvertX 1 3 (initialised [18.01534; 58.4428; 74.5513]) (initialised [0.9; 0.06; 0.04])
  = mret (0.06 / 58.4428 / Rsum (moles [0.9; 0.06; 0.04] [18.01534; 58.4428; 74.5513])).
Proof.
  apply (ConvertX_mole_fraction [18.01534; 58.4428; 74.5513] [0.9; 0.06; 0.04] 1);
    [reflexivity | exact three_components_nonzero | reflexivity | reflexivity |].
  pose proof three_components_total_positive. lra.
Defined.

(** X9.  What [ConvertX] does outside that domain, the molar weights still
    being nonzero: a component index below 0 or not below [nmat] is read
    outside the scratch array, and a vanishing sum of mole counts (all mass
    fractions zero, say) is divided by. *)
Theorem ConvertX_outside_domain (imat : Z) (ms ws : list R) :
  length ms = length ws ->
  Forall (fun m => m <> 0) ms ->
  ((imat < 0 \/ Z.of_nat (length ws) <= imat)%Z ->
   ConvertX imat (Z.of_nat (length ws)) (initialised ms) (initialised ws) = mthrow BadIndex)
  /\ ((0 <= imat < Z.of_nat (length ws))%Z -> Rsum (moles ws ms) = 0 ->
      ConvertX imat (Z.of_nat (length ws)) (initialised ms) (initialised ws)
      = mthrow DomainError).
Proof.
  intros Hlen Hms. rewrite ConvertX_run by assumption. split.
  - intros Hi. rewrite readZ_outside by (rewrite length_moles by assumption; lia).
    reflexivity.
  - intros Hi Hsum.
    destruct (lookup_lt_is_Some_2 (moles ws ms) (Z.to_nat imat)) as [q Hq];
      [rewrite length_moles by assumption; lia |].
    rewrite <- (Z2Nat.id imat) at 1 by lia.
    rewrite (readZ_initialised _ _ _ Hq), bind_ret_l.
    rewrite divide_zero by assumption. reflexivity.
Qed.

Lemma ConvertX_outside_domain_witness :
  ConvertX 2 2 (initialised [18.01534; 58.4428]) (initialised [0.9; 0.1]) = mthrow BadIndex
  /\ ConvertX 0 2 (initialised [18.01534; 58.4428]) (initialised [0; 0]) = mthrow DomainError.
Proof.
  assert (Hms : Forall (fun m : R => m <> 0) [18.01534; 58.4428])
    by (repeat constructor; lra).
  split.
  - apply (proj1 (ConvertX_outside_domain 2 [18.01534; 58.4428] [0.9; 0.1] eq_refl Hms)).
    right. simpl. lia.
  - apply (proj2 (ConvertX_outside_domain 0 [18.01534; 58.4428] [0; 0] eq_refl Hms)).
    + simpl. lia.
    + unfold Rsum, moles. simpl. lra.
Defined.

(** *** Normalisation and range of the molar fractions *)

Lemma fold_left_Rplus_from (l : list R) (a : R) :
  fold_left Rplus l a = a + fold_left Rplus l 0.
Proof.
  revert a. induction l as [| x l IH]; intros a; simpl; [lra |].
  rewrite (IH (a + x)), (IH (0 + x)). lra.
Qed.

Lemma Rsum_cons (x : R) (l : list R) : Rsum (x :: l) = x + Rsum l.
Proof. unfold Rsum. simpl. rewrite fold_left_Rplus_from. lra. Qed.

Lemma Rsum_scaled (l : list R) (total : R) :
  Rsum ((fun q => q / total) <$> l) = Rsum l / total.
Proof.
  induction l as [| x l IH].
  - unfold Rsum; simpl. lra.
  - rewrite fmap_cons, !Rsum_cons, IH. rewrite Rdiv_plus_distr. reflexivity.
Qed.

Lemma Rsum_bounds (l : list R) :
  Forall (fun q => 0 <= q) l ->
  0 <= Rsum l /\ forall (i : nat) (q : R), l !! i = Some q -> q <= Rsum l.
Proof.
  induction 1 as [| x l Hx Hl [IH0 IH]].
  - split; [unfold Rsum; simpl; lra | intros i q Hq; discriminate].
  - rewrite Rsum_cons. split; [lra |].
    intros [| i] q Hq; simpl in Hq.
    + injection Hq as ->. lra.
    + specialize (IH i q Hq). lra.
Qed.

Lemma moles_nonneg (ws ms : list R) :
  Forall (fun w => 0 <= w) ws -> Forall (fun m => 0 < m) ms ->
  Forall (fun q => 0 <= q) (moles ws ms).
Proof.
  intros Hws. revert ms. induction Hws as [| w ws Hw Hws IH]; intros ms Hms.
  - constructor.
  - destruct Hms as [| m ms Hm Hms]; [constructor |].
    unfold moles; simpl. constructor; [| apply IH; assumption].
    apply Rlt_le in Hm as Hm'. unfold Rdiv.
    apply Rmult_le_pos; [assumption | apply Rlt_le, Rinv_0_lt_compat; assumption].
Qed.

Lemma weights_nonzero (ms : list R) :
  Forall (fun m => 0 < m) ms -> Forall (fun m => m <> 0) ms.
Proof. intros H. eapply Forall_impl; [exact H |]. intros m Hm; simpl in Hm; lra. Qed.

(** The sum of the mole counts is positive as soon as the molar weights are
    positive, no mass fraction is negative and one is positive. *)
Lemma moles_total_positive (ms ws : list R) :
  length ms = length ws ->
  Forall (fun m => 0 < m) ms ->
  Forall (fun w => 0 <= w) ws ->
  Exists (fun w => 0 < w) ws ->
  0 < Rsum (moles ws ms).
Proof.
  intros Hlen Hms Hws Hex.
  apply Exists_exists in Hex as (w & Hin & Hw).
  apply list_elem_of_lookup in Hin as [j Hj].
  destruct (lookup_lt_is_Some_2 ms j) as [m Hm].
  { rewrite Hlen. apply lookup_lt_is_Some_1. eexists; eassumption. }
  pose proof (Forall_lookup_1 _ _ _ _ Hms Hm) as Hm0.
  destruct (Rsum_bounds _ (moles_nonneg ws ms Hws Hms)) as [_ Hle].
  specialize (Hle j (w / m) (moles_lookup ws ms j w m Hj Hm)).
  assert (0 < w / m) by (apply Rdiv_lower; lra).
  lra.
Qed.

(** X10.  Normalisation for up to 1000 components: with positive molar
    weights, no negative mass fraction and at least one positive one, there
    is one molar fraction per component, each the value [ConvertX] returns
    for that component, and together they sum to 1 to within 1e-9. *)
Theorem ConvertX_fractions_sum_near_one (ms ws : list R) :
  length ms = length ws ->
  (length ws <= 1000)%nat ->
  Forall (fun m => 0 < m) ms ->
  Forall (fun w => 0 <= w) ws ->
  Exists (fun w => 0 < w) ws ->
  exists xs : list R,
    length xs = length ws
    /\ (forall (i : nat) (x : R), xs !! i = Some x ->
          ConvertX (Z.of_nat i) (Z.of_nat (length ws)) (initialised ms) (initialised ws)
          = mret x)
    /\ 1 - 1e-9 <= Rsum xs <= 1 + 1e-9.
Proof.
  intros Hlen _ Hms Hws Hex.
  pose proof (moles_total_positive ms ws Hlen Hms Hws Hex) as Hpos.
  pose proof (weights_nonzero ms Hms) as Hms0.
  exists ((fun q => q / Rsum (moles ws ms)) <$> moles ws ms). split; [| split].
  - rewrite length_fmap. apply length_moles. assumption.
  - intros i x Hx. rewrite list_lookup_fmap in Hx.
    destruct (moles ws ms !! i) as [q |] eqn:Hq; [| discriminate].
    injection Hx as <-.
    rewrite ConvertX_run by assumption.
    rewrite (readZ_initialised _ _ _ Hq), bind_ret_l.
    rewrite divide_nonzero, bind_ret_l by lra. reflexivity.
  - rewrite Rsum_scaled, Rdiv_diag by lra. lra.
Qed.

Lemma ConvertX_fractions_sum_near_one_witness :
  exists xs : list R,
    length xs = 3%nat
    /\ (forall (i : nat) (x : R), xs !! i = Some x ->
          ConvertX (Z.of_nat i) 3
            (initialised [18.01534; 58.4428; 74.5513]) (initialised [0.9; 0.06; 0.04])
          = mret x)
    /\ 1 - 1e-9 <= Rsum xs <= 1 + 1e-9.
Proof.
  apply (ConvertX_fractions_sum_near_one [18.01534; 58.4428; 74.5513] [0.9; 0.06; 0.04]).
  - reflexivity.
  - simpl. lia.
  - repeat constructor; lra.
  - repeat constructor; lra.
  - apply Exists_cons_hd. lra.
Defined.

(** X11.  With positive molar weights, no negative mass fraction and at
    least one positive one, [ConvertX] returns for every component in range
    a molar fraction between 0 and 1; no division by zero is reached. *)
Theorem ConvertX_fraction_in_unit_interval (ms ws : list R) (i : nat) :
  length ms = length ws ->
  Forall (fun m => 0 < m) ms ->
  Forall (fun w => 0 <= w) ws ->
  Exists (fun w => 0 < w) ws ->
  (i < length ws)%nat ->
  exists x : R,
    ConvertX (Z.of_nat i) (Z.of_nat (length ws)) (initialised ms) (initialised ws) = mret x
    /\ 0 <= x <= 1.
Proof.
  intros Hlen Hms Hws Hex Hi.
  pose proof (moles_total_positive ms ws Hlen Hms Hws Hex) as Hpos.
  pose proof (moles_nonneg ws ms Hws Hms) as Hq0.
  destruct (Rsum_bounds _ Hq0) as [_ Hle].
  destruct (lookup_lt_is_Some_2 (moles ws ms) i) as [q Hq];
    [rewrite length_moles by assumption; assumption |].
  rewrite ConvertX_run by (try apply weights_nonzero; assumption).
  rewrite (readZ_initialised _ _ _ Hq), bind_ret_l.
  rewrite divide_nonzero, bind_ret_l by lra.
  eexists; split; [reflexivity |].
  pose proof (Forall_lookup_1 _ _ _ _ Hq0 Hq) as Hq1. simpl in Hq1.
  specialize (Hle i q Hq). split.
  - apply Rdiv_le_lower; lra.
  - apply Rdiv_le_upper; lra.
Qed.

Lemma ConvertX_fraction_in_unit_interval_witness :
  exists x : R,
    ConvertX 2 3 (initialised [18.01534; 58.4428; 74.5513]) (initialised [0.9; 0.06; 0.04])
    = mret x
    /\ 0 <= x <= 1.
Proof.
  apply (ConvertX_fraction_in_unit_interval
           [18.01534; 58.4428; 74.5513] [0.9; 0.06; 0.04] 2).
  - reflexivity.
  - repeat constructor; lra.
  - repeat constructor; lra.
  - apply Exists_cons_hd. lra.
  - simpl. lia.
Defined.

(** *** A vanishing molar weight *)

Lemma ConvertX_loop_fails (ms ws : list R) :
  length ms = length ws ->
  forall (k from : nat) (r : array) (s : R),
    (from + k = length ws)%nat ->
    length r = length ws ->
    Exists (fun m => m = 0) (drop from ms) ->
    loop from k (fun i '(r, sum_N) =>
        w ← read (initialised ws) i;
        mw ← read (initialised ms) i;
        q ← divide w mw;
        r ← write r i q;
        ri ← read r i;
        mret (r, sum_N + ri))
      (r, s)
    = mthrow DomainError.
Proof.
  intros Hlen. induction k as [| k IH]; intros from r s Hk Hr Hex.
  - rewrite drop_ge in Hex by lia. inversion Hex.
  - destruct (lookup_lt_is_Some_2 ws from) as [w Hw]; [lia |].
    destruct (lookup_lt_is_Some_2 ms from) as [m Hm]; [lia |].
    rewrite (drop_S _ _ _ Hm) in Hex. apply Exists_cons in Hex.
    cbn [loop].
    rewrite (read_initialised ws from w Hw), bind_ret_l.
    rewrite (read_initialised ms from m Hm), bind_ret_l.
    destruct (decide (m = 0)) as [Hm0 | Hm0].
    + rewrite divide_zero by assumption. reflexivity.
    + destruct Hex as [Hex | Hex]; [contradiction |].
      rewrite divide_nonzero, bind_ret_l by assumption.
      rewrite write_in_range, bind_ret_l by lia.
      rewrite read_write_same, !bind_ret_l by lia.
      apply IH; [lia | rewrite length_insert; assumption | assumption].
Qed.

(** X12.  If one of the [nmat] molar weights is zero, [ConvertX] reaches a
    division by zero inside its loop, whichever component is asked for. *)
Theorem ConvertX_zero_molar_weight (imat : Z) (ms ws : list R) :
  length ms = length ws ->
  Exists (fun m => m = 0) ms ->
  ConvertX imat (Z.of_nat (length ws)) (initialised ms) (initialised ws)
  = mthrow DomainError.
Proof.
  intros Hlen Hex. unfold ConvertX. rewrite Nat2Z.id.
  rewrite (ConvertX_loop_fails ms ws Hlen (length ws) 0%nat);
    [reflexivity | lia | apply length_replicate | exact Hex].
Qed.

Lemma ConvertX_zero_molar_weight_witness :
  ConvertX 0 2 (initialised [18.01534; 0]) (initialised [0.9; 0.1]) = mthrow DomainError.
Proof.
  apply (ConvertX_zero_molar_weight 0 [18.01534; 0] [0.9; 0.1]); [reflexivity |].
  apply Exists_cons_tl, Exists_cons_hd. reflexivity.
Defined.

(** ** Vapour pressure over brine: Raoult lowering and its sign *)

(** The molar fraction of water in the two-component system. *)
Lemma water_fraction (w : R) :
  0 <= w <= 1 ->
  exists x : R,
    ConvertX 0 2 (initialised [18.01534; 58.4428]) (initialised [w; 1 - w]) = mret x
    /\ 0 <= x <= 1
    /\ (0 < w -> 0 < x)
    /\ (w <= 0.41 -> x <= 0.7).
Proof.
  intros Hw.
  pose proof (mole_counts_positive 18.01534 58.4428 w ltac:(lra) ltac:(lra) Hw) as Hs.
  rewrite ConvertX_two by lra. run. rewrite divide_nonzero by lra. run.
  eexists; split; [reflexivity |].
  set (a := w / 18.01534) in *. set (b := (1 - w) / 58.4428) in *.
  assert (Ha : a * 18.01534 = w).
  { unfold a, Rdiv. rewrite Rmult_assoc, Rinv_l by lra. lra. }
  assert (Hb : b * 58.4428 = 1 - w).
  { unfold b, Rdiv. rewrite Rmult_assoc, Rinv_l by lra. lra. }
  repeat split.
  - apply Rdiv_le_lower; lra.
  - apply Rdiv_le_upper; lra.
  - intros H. apply Rdiv_lower; lra.
  - intros H. apply Rdiv_le_upper; lra.
Qed.

Lemma WaterVaporPressure_brine_eq (T w : R) :
  WaterVaporPressure_brine T w
  = x ← ConvertX 0 2 (initialised [18.01534; 58.4428]) (initialised [w; 1 - w]);
    p ← psat_h2o T;
    mret ((1 - (1 - x)) * ActivityCoefficient_h2o (1 - x) * p).
Proof. unfold WaterVaporPressure_brine. run. reflexivity. Qed.

(** X13.  Between 273.15 K and the critical temperature and for a mass
    fraction of water in [0, 1], [WaterVaporPressure_brine] returns a value
    that never exceeds the saturation pressure of pure water at the same
    temperature. *)
Theorem WaterVaporPressure_brine_below_saturation (T w : R) :
  273.15 <= T <= H2O_TC -> 0 <= w <= 1 ->
  exists v p : R,
    WaterVaporPressure_brine T w = mret v /\ psat_h2o T = mret p /\ v <= p.
Proof.
  intros HT Hw. rewrite WaterVaporPressure_brine_eq.
  destruct (water_fraction w Hw) as (x & -> & Hx & _).
  rewrite psat_h2o_eq, divide_nonzero, !bind_ret_l by lra.
  eexists _, _. split; [reflexivity |]. split; [reflexivity |].
  set (p := H2O_PC * exp _).
  assert (Hp : 0 < p).
  { apply Rmult_lt_0_compat; [apply H2O_PC_positive | apply exp_pos]. }
  assert (Ha : ActivityCoefficient_h2o (1 - x) <= 1).
  { unfold ActivityCoefficient_h2o. nra. }
  set (alpha := ActivityCoefficient_h2o (1 - x)) in *.
  assert (Hc : (1 - (1 - x)) * alpha <= 1) by nra.
  nra.
Qed.

Lemma WaterVaporPressure_brine_below_saturation_witness :
  exists v p : R,
    WaterVaporPressure_brine 350 0.9 = mret v /\ psat_h2o 350 = mret p /\ v <= p.
Proof.
  apply (WaterVaporPressure_brine_below_saturation 350 0.9); [unfold H2O_TC |]; lra.
Defined.

(** X14.  Between 273.15 K and the critical temperature and for a mass
    fraction of water in [0.001, 0.41], the nonvolatile molar fraction is at
    least 0.3, the activity coefficient is negative, and
    [WaterVaporPressure_brine] returns a negative pressure; nothing in the
    function checks the range of the correlation. *)
Theorem WaterVaporPressure_brine_negative (T w : R) :
  273.15 <= T <= H2O_TC -> 0.001 <= w <= 0.41 ->
  exists v : R, WaterVaporPressure_brine T w = mret v /\ v < 0.
Proof.
  intros HT Hw. rewrite WaterVaporPressure_brine_eq.
  destruct (water_fraction w ltac:(lra)) as (x & -> & Hx & Hx0 & Hx1).
  rewrite psat_h2o_eq, divide_nonzero, !bind_ret_l by lra.
  eexists. split; [reflexivity |].
  set (p := H2O_PC * exp _).
  assert (Hp : 0 < p).
  { apply Rmult_lt_0_compat; [apply H2O_PC_positive | apply exp_pos]. }
  specialize (Hx0 ltac:(lra)). specialize (Hx1 ltac:(lra)).
  assert (Ha : ActivityCoefficient_h2o (1 - x) < 0).
  { unfold ActivityCoefficient_h2o. nra. }
  set (alpha := ActivityCoefficient_h2o (1 - x)) in *.
  assert (Hc : (1 - (1 - x)) * alpha < 0) by nra.
  nra.
Qed.

Lemma WaterVaporPressure_brine_negative_witness :
  exists v : R, WaterVaporPressure_brine 350 0.4 = mret v /\ v < 0.
Proof.
  apply (WaterVaporPressure_brine_negative 350 0.4); [unfold H2O_TC |]; lra.
Defined.

(** ** Solubility: totality, sign and growth *)

(** X15.  [SatConc] never fails: whatever the argument, it returns the
    solubility polynomial of the Celsius temperature, a mass fraction above
    0.2618, after at most one message. *)
Theorem SatConc_returns_positive (t : R) :
  exists w_sat : R,
    value (SatConc t) = Ok w_sat
    /\ w_sat = SatConc_polynomial (t - 273.15)
    /\ 0.2618 < w_sat
    /\ (length (log (SatConc t)) <= 1)%nat.
Proof.
  exists (SatConc_polynomial (t - 273.15)).
  split; [apply SatConc_value |]. split; [reflexivity |]. split.
  - unfold SatConc_polynomial. set (c := t - 273.15).
    pose proof (pow2_ge_0 (c + 28.9)) as Hsq. nra.
  - rewrite SatConc_log. destruct (decide (t < 0 \/ t > 450)); simpl; lia.
Qed.

(** X16.  From 273.15 K on, [SatConc] is non-decreasing in its argument. *)
Theorem SatConc_nondecreasing (t1 t2 : R) :
  273.15 <= t1 -> t1 <= t2 ->
  exists w1 w2 : R,
    value (SatConc t1) = Ok w1 /\ value (SatConc t2) = Ok w2 /\ w1 <= w2.
Proof.
  intros H1 H12. rewrite !SatConc_value. eexists _, _.
  split; [reflexivity |]. split; [reflexivity |].
  unfold SatConc_polynomial. nra.
Qed.

Lemma SatConc_nondecreasing_witness :
  exists w1 w2 : R,
    value (SatConc 300) = Ok w1 /\ value (SatConc 350) = Ok w2 /\ w1 <= w2.
Proof. apply (SatConc_nondecreasing 300 350); lra. Defined.

(** ** Molality: sign *)

(** X17.  Away from the singular mass fraction 1, the molality returned by
    [Convert_w2m] is non-negative exactly for mass fractions in [0, 1): a
    negative mass fraction, or one above 1, gives a negative molality. *)
Theorem Convert_w2m_sign (w : R) :
  w <> 1 ->
  exists m : R, Convert_w2m w = mret m /\ (0 <= m <-> 0 <= w < 1).
Proof.
  intros Hw. rewrite Convert_w2m_value by assumption.
  eexists; split; [reflexivity |].
  set (q := w / (1 - w)).
  assert (Hq : q * (1 - w) = w).
  { unfold q, Rdiv. rewrite Rmult_assoc, Rinv_l by lra. lra. }
  split.
  - intros Hm. assert (0 <= q) by lra.
    destruct (Rlt_le_dec w 1); [| nra].
    split; [nra | assumption].
  - intros [H0 H1]. assert (0 <= q) by (apply Rdiv_le_lower; lra). lra.
Qed.

Lemma Convert_w2m_sign_witness :
  exists m : R, Convert_w2m 1.5 = mret m /\ (0 <= m <-> 0 <= 1.5 < 1).
Proof. apply (Convert_w2m_sign 1.5). lra. Defined.

(** ** Thermal conductivity of the solution: domain, verbosity, warnings *)

Lemma log_Convert_w2m (w : R) : log (Convert_w2m w) = [].
Proof.
  destruct (decide (w = 1)) as [-> | Hw].
  - rewrite Convert_w2m_singular. reflexivity.
  - rewrite Convert_w2m_value by assumption. reflexivity.
Qed.

(** X18.  [ThermCond_aqNaCl] reaches the division by zero of the molality
    conversion at mass fraction 1; at every other mass fraction it returns
    the double sum in Celsius temperature and molality, which for pure
    water (mass fraction 0) is the first polynomial alone. *)
Theorem ThermCond_aqNaCl_domain (id_message : Z) (T w_nacl : R) :
  (w_nacl = 1 -> ThermCond_aqNaCl id_message T w_nacl = mthrow DomainError)
  /\ (w_nacl <> 1 ->
      value (ThermCond_aqNaCl id_message T w_nacl)
      = Ok (ThermCond_aqNaCl_sum T (w_nacl / (1 - w_nacl) / 58.4428 * 1000)))
  /\ (w_nacl = 0 ->
      value (ThermCond_aqNaCl id_message T w_nacl)
      = Ok (0.5621 + 0.00199 * (T - 273.15) + -8.6e-6 * (T - 273.15) ^ 2)).
Proof.
  split; [| split].
  - intros ->. rewrite ThermCond_aqNaCl_eq, Convert_w2m_singular. reflexivity.
  - intros Hw. rewrite ThermCond_aqNaCl_value, Convert_w2m_value, bind_ret_l by assumption.
    reflexivity.
  - intros ->. rewrite ThermCond_aqNaCl_value, Convert_w2m_value, bind_ret_l by lra.
    rewrite value_mret. f_equal. unfold ThermCond_aqNaCl_sum. cbv zeta.
    replace (0 / (1 - 0) / 58.4428 * 1000) with 0 by lra. lra.
Qed.

Lemma ThermCond_aqNaCl_domain_witness :
  ThermCond_aqNaCl 0 300 1 = mthrow DomainError
  /\ value (ThermCond_aqNaCl 0 300 0)
     = Ok (0.5621 + 0.00199 * (300 - 273.15) + -8.6e-6 * (300 - 273.15) ^ 2).
Proof.
  split.
  - apply (proj1 (ThermCond_aqNaCl_domain 0 300 1)). reflexivity.
  - apply (proj2 (proj2 (ThermCond_aqNaCl_domain 0 300 0))). reflexivity.
Defined.

(** X19.  The verbosity only gates messages: the value (or failure) of
    [ThermCond_aqNaCl] is the same for every [id_message], and with
    [id_message >= 2] no message is emitted on any input. *)
Theorem ThermCond_aqNaCl_verbosity (id_message id_message' : Z) (T w_nacl : R) :
  value (ThermCond_aqNaCl id_message T w_nacl)
  = value (ThermCond_aqNaCl id_message' T w_nacl)
  /\ ((2 <= id_message)%Z -> log (ThermCond_aqNaCl id_message T w_nacl) = []).
Proof.
  split; [rewrite !ThermCond_aqNaCl_value; reflexivity |].
  intros Hid. rewrite ThermCond_aqNaCl_eq.
  pose proof (log_Convert_w2m w_nacl) as Hlog.
  destruct (Convert_w2m w_nacl) as [[m | e] l]; simpl in Hlog; subst l; [| reflexivity].
  unfold when. destruct (decide (id_message < 2)%Z); [lia | reflexivity].
Qed.

Lemma ThermCond_aqNaCl_verbosity_witness :
  log (ThermCond_aqNaCl 2 400 0.3) = [].
Proof. apply (proj2 (ThermCond_aqNaCl_verbosity 2 0 400 0.3)). lia. Defined.

(** X20.  With the warnings enabled ([id_message < 2]) and a mass fraction
    other than 1, the temperature warning of [ThermCond_aqNaCl] is emitted
    exactly when [T] is below 295 K or above 365 K, and it is then the first
    message. *)
Theorem ThermCond_aqNaCl_temperature_warning (id_message : Z) (T w_nacl : R) :
  (id_message < 2)%Z -> w_nacl <> 1 ->
  (temperature_warning T ∈ log (ThermCond_aqNaCl id_message T w_nacl)
   <-> T < 295 \/ T > 365)
  /\ (T < 295 \/ T > 365 ->
      head (log (ThermCond_aqNaCl id_message T w_nacl)) = Some (temperature_warning T)).
Proof.
  intros Hid Hw. rewrite ThermCond_aqNaCl_log by assumption. cbv zeta.
  destruct (decide (id_message < 2)%Z); [| contradiction].
  destruct (decide (T < 295 \/ T > 365)) as [HT | HT]; split.
  - split; [intros _; assumption | intros _; apply list_elem_of_here].
  - reflexivity.
  - split; [| contradiction].
    destruct (decide (_ <= 6.0)); simpl; intros Hin.
    + apply list_elem_of_singleton in Hin. discriminate Hin.
    + inversion Hin.
  - contradiction.
Qed.

Lemma ThermCond_aqNaCl_temperature_warning_witness :
  head (log (ThermCond_aqNaCl 0 400 0.3)) = Some (temperature_warning 400).
Proof.
  apply (proj2 (ThermCond_aqNaCl_temperature_warning 0 400 0.3 ltac:(lia) ltac:(lra))).
  right; lra.
Defined.

(** ** Density of the solution *)

Lemma when_skip (P : Prop) `{Decision P} (stmt : M unit) :
  ~ P -> when P stmt = mret tt.
Proof. intros HP. unfold when. destruct (decide P); [contradiction | reflexivity]. Qed.

Lemma Density_aqNaCl_eq (id_message : Z) (T w : R) :
  Density_aqNaCl id_message T w
  = (when ((id_message < 2)%Z /\ (T < 0 \/ T > 300))
       (Message (msg_format (Density_warning T)) [T]);;
     mret (Density_aqNaCl_sum T w)).
Proof.
  unfold Density_aqNaCl. apply bind_ext; intros _.
  run. f_equal. unfold Density_aqNaCl_sum. lra.
Qed.

(** X21.  [Density_aqNaCl] never fails and never leaves its tables: for
    every input it returns the double sum of its 5x5 table, whatever the
    verbosity, and it emits its one range warning exactly when
    [id_message < 2] and [T] is below 0 or above 300. *)
Theorem Density_aqNaCl_returns (id_message : Z) (T w : R) :
  value (Density_aqNaCl id_message T w) = Ok (Density_aqNaCl_sum T w)
  /\ log (Density_aqNaCl id_message T w)
     = if decide ((id_message < 2)%Z /\ (T < 0 \/ T > 300))
       then [Density_warning T] else [].
Proof.
  rewrite Density_aqNaCl_eq. unfold when.
  destruct (decide ((id_message < 2)%Z /\ (T < 0 \/ T > 300))); split; reflexivity.
Qed.

(** X22.  For pure water (mass fraction 0) and [T] between 0 and 100, the
    scale on which the range check reads [T], [Density_aqNaCl] returns a
    density between 943 and 1001 kg/m3, without a warning. *)
Theorem Density_aqNaCl_pure_water (id_message : Z) (T : R) :
  0 <= T <= 100 ->
  exists rho : R,
    Density_aqNaCl id_message T 0 = mret rho /\ 943 <= rho <= 1001.
Proof.
  intros HT. rewrite Density_aqNaCl_eq.
  rewrite when_skip by (intros [_ [H | H]]; lra). rewrite bind_ret_l.
  eexists; split; [reflexivity |].
  unfold Density_aqNaCl_sum.
  assert (H2 : 0 <= T ^ 2 <= 100 * T) by nra.
  assert (H3 : 0 <= T ^ 3 <= 100 * T ^ 2) by nra.
  assert (H4 : 0 <= T ^ 4 <= 100 * T ^ 3) by nra.
  split; nra.
Qed.

Lemma Density_aqNaCl_pure_water_witness :
  exists rho : R, Density_aqNaCl 0 25 0 = mret rho /\ 943 <= rho <= 1001.
Proof. apply (Density_aqNaCl_pure_water 0 25). lra. Defined.

(** ** Viscosity of the solution *)

(** X23.  [Viscosity_aqNaCl] never fails and never returns a viscosity of
    0.004 Pa-s or less, whatever the temperature and the mass fraction; its
    one warning is emitted exactly when [id_message < 2] and the mass
    fraction is below 0 or above 0.25, the temperature is not checked. *)
Theorem Viscosity_aqNaCl_positive (id_message : Z) (T w_nv : R) :
  exists mu : R,
    value (Viscosity_aqNaCl id_message T w_nv) = Ok mu
    /\ 0.004 < mu
    /\ log (Viscosity_aqNaCl id_message T w_nv)
       = if decide ((id_message < 2)%Z /\ (w_nv < 0 \/ w_nv > 0.25))
         then [Viscosity_warning w_nv] else [].
Proof.
  unfold Viscosity_aqNaCl, when.
  eexists. split; [| split].
  - destruct (decide ((id_message < 2)%Z /\ (w_nv < 0 \/ w_nv > 0.25))); reflexivity.
  - pose proof (pow2_ge_0 (T - 466 / 605 * w_nv - 39206 / 605)) as H1.
    pose proof (pow2_ge_0 (w_nv - 5.6)) as H2.
    pose proof (pow2_ge_0 (w_nv - 5.8)) as H3.
    nra.
  - destruct (decide ((id_message < 2)%Z /\ (w_nv < 0 \/ w_nv > 0.25))); reflexivity.
Qed.
